(** * Digit5 Converter API (src/main.py): a shallow embedding and its contract

    The service is a thin FastAPI layer over third-party codecs (Pillow,
    img2pdf, PyMuPDF, PyPDF2), the file system and the system's random
    source.  The handlers of [main.py] are embedded as computations in a
    state-and-exception monad.  Everything that lives outside the
    repository is a field of the record [Env]: an oracle that says, for
    each argument, whether the library call returns or raises.  The state
    holds the output directory, the number of random draws made so far and
    the chronological trace of the calls the handlers made to their
    collaborators.

    Names, messages and keys are strings of code points below 256.  The
    one text the handlers transform, [target_format], is a sequence of
    arbitrary code points: [str.lower] and [str.strip] are written out
    on code points below 256 and follow the Unicode database, a
    collaborator like the others, above. *)

From Stdlib Require Import ZArith NArith List String Ascii Bool Lia Arith.
From Stdlib Require Import DecimalString Decimal.
From Stdlib.Strings Require Byte.
Import ListNotations.

Local Open Scope string_scope.
Local Open Scope list_scope.
Local Open Scope Z_scope.

Definition bytes := list Byte.byte.

(* ================================================================= *)
(** ** Python strings *)

Module PyStr.

Definition code (c : ascii) : nat := nat_of_ascii c.

(** [str.isspace] on one character, for code points below 256. *)
Definition isspace (c : ascii) : bool :=
  let n := code c in
  ((9 <=? n) && (n <=? 13) || (28 <=? n) && (n <=? 32)
   || (n =? 133) || (n =? 160))%nat.

(** [str.lower] on one character: A-Z, and the Latin-1 capitals
    0xC0-0xDE except the multiplication sign 0xD7. *)
Definition lower_char (c : ascii) : ascii :=
  let n := code c in
  if ((65 <=? n) && (n <=? 90)
      || (192 <=? n) && (n <=? 222) && negb (n =? 215))%nat
  then ascii_of_nat (n + 32) else c.

Fixpoint lower (s : string) : string :=
  match s with
  | EmptyString => EmptyString
  | String c r => String (lower_char c) (lower r)
  end.

Fixpoint lstrip (s : string) : string :=
  match s with
  | EmptyString => EmptyString
  | String c r => if isspace c then lstrip r else s
  end.

Fixpoint rev_onto (s acc : string) : string :=
  match s with
  | EmptyString => acc
  | String c r => rev_onto r (String c acc)
  end.

Definition rev (s : string) : string := rev_onto s EmptyString.

Definition rstrip (s : string) : string := rev (lstrip (rev s)).

Definition strip (s : string) : string := rstrip (lstrip s).

(** [str(n)] for a non-negative integer. *)
Definition of_nat (n : nat) : string :=
  NilZero.string_of_uint (Nat.to_uint n).

(** [x in (a, b, ...)] for strings. *)
Fixpoint mem (x : string) (l : list string) : bool :=
  match l with
  | [] => false
  | y :: r => String.eqb x y || mem x r
  end.

(** Truth value of an optional string: [None] and [''] are falsy. *)
Definition truthy (o : option string) : bool :=
  match o with
  | None => false
  | Some s => negb (String.eqb s EmptyString)
  end.

(** [f'{x}'] of an optional string. *)
Definition fmt_opt (o : option string) : string :=
  match o with
  | None => "None"
  | Some s => s
  end.

(** A [str] of arbitrary code points. *)
Definition text := list N.

Definition of_string (s : string) : text :=
  map N_of_ascii (list_ascii_of_string s).

(** Back to a string; exact on code points below 256. *)
Definition to_string (t : text) : string :=
  string_of_list_ascii (map ascii_of_N t).

Definition latin1 (t : text) : bool := forallb (fun c => (c <? 256)%N) t.

(** [str.lower]: character by character on a text below code point 256,
    and what the Unicode database gives on any other text (the mapping
    is not character by character there: final sigma). *)
Definition tlower (unicode_lower : text -> text) (t : text) : text :=
  if latin1 t then of_string (lower (to_string t)) else unicode_lower t.

Definition tisspace (unicode_isspace : N -> bool) (c : N) : bool :=
  if (c <? 256)%N then isspace (ascii_of_N c) else unicode_isspace c.

Fixpoint tlstrip (sp : N -> bool) (t : text) : text :=
  match t with
  | [] => []
  | c :: r => if tisspace sp c then tlstrip sp r else t
  end.

(** [str.strip]: white space is dropped at both ends. *)
Definition tstrip (sp : N -> bool) (t : text) : text :=
  List.rev (tlstrip sp (List.rev (tlstrip sp t))).

Fixpoint teqb (a b : text) : bool :=
  match a, b with
  | [], [] => true
  | x :: a', y :: b' => (x =? y)%N && teqb a' b'
  | _, _ => false
  end.

(** [x in (a, b, ...)] for texts. *)
Fixpoint tmem (x : text) (l : list text) : bool :=
  match l with
  | [] => false
  | y :: r => teqb x y || tmem x r
  end.

End PyStr.

(* ================================================================= *)
(** ** uuid.uuid4().hex

    [uuid4()] is [UUID(bytes=os.urandom(16), version=4)]: the sixteen
    random bytes are read as a big-endian integer, the variant bits are
    forced to [10] and the version nibble to [4]; [.hex] is
    ['%032x' % int]. *)

Module Uuid.

Definition two128 : Z := 2 ^ 128.

(** The integer held by sixteen bytes: the draw is reduced to 128 bits. *)
Definition from_bytes (r : Z) : Z := r mod two128.

Definition uuid4_int (r : Z) : Z :=
  let i0 := from_bytes r in
  let i1 := Z.land i0 (Z.lnot (Z.shiftl 49152 48)) in   (* 0xc000 << 48 *)
  let i2 := Z.lor i1 (Z.shiftl 32768 48) in             (* 0x8000 << 48 *)
  let i3 := Z.land i2 (Z.lnot (Z.shiftl 61440 64)) in   (* 0xf000 << 64 *)
  Z.lor i3 (Z.shiftl 4 76).                             (* version << 76 *)

Definition hex_digit (d : Z) : ascii :=
  if d <? 10 then ascii_of_nat (48 + Z.to_nat d)
  else ascii_of_nat (87 + Z.to_nat d).

(** The [n] low hexadecimal digits of [v], most significant first. *)
Fixpoint hex_digits (n : nat) (v : Z) (acc : string) : string :=
  match n with
  | O => acc
  | S k => hex_digits k (v / 16) (String (hex_digit (v mod 16)) acc)
  end.

(** ['%032x' % v], for [0 <= v < 2^128]. *)
Definition hex (v : Z) : string := hex_digits 32 v EmptyString.

Definition is_hex_char (c : ascii) : bool :=
  let n := nat_of_ascii c in
  ((48 <=? n) && (n <=? 57) || (97 <=? n) && (n <=? 102))%nat.

Fixpoint all_hex (s : string) : bool :=
  match s with
  | EmptyString => true
  | String c r => is_hex_char c && all_hex r
  end.

Definition digit_val (c : ascii) : Z :=
  let n := Z.of_nat (nat_of_ascii c) in
  if n <? 58 then n - 48 else n - 87.

(** Reading a hexadecimal string back ([int(s, 16)]). *)
Fixpoint unhex_from (acc : Z) (s : string) : Z :=
  match s with
  | EmptyString => acc
  | String c r => unhex_from (16 * acc + digit_val c) r
  end.

Definition unhex (s : string) : Z := unhex_from 0 s.

End Uuid.

(* ================================================================= *)
(** ** Values, exceptions and the world outside the repository *)

(** Exceptions raised by the libraries.  [main.py] distinguishes only
    Pillow's [UnidentifiedImageError] from the rest. *)
Inductive pyerr : Type :=
| UnidentifiedImageError (msg : string)
| OtherException (msg : string).

(** What a handler can raise: FastAPI's [HTTPException], or a library
    exception that nobody caught (the framework answers 500). *)
Inductive exn : Type :=
| HTTPException (status_code : Z) (detail : string)
| Uncaught (e : pyerr).

Inductive result (A : Type) : Type :=
| Ok (a : A)
| Raise (e : exn).

Arguments Ok {A} a.
Arguments Raise {A} e.

(** The body of a [JSONResponse]. *)
#[warnings="-register-all"]
Inductive json : Type :=
| JBool (b : bool)
| JInt (n : Z)
| JStr (s : string)
| JList (l : list json)
| JObj (fields : list (string * json)).

(** An upload as the framework hands it over. *)
Record UploadFile : Type := mkUpload {
  filename : option string;
  content : bytes
}.

(** [fitz.Matrix(zoom_x, zoom_y)]. *)
Record Matrix : Type := mkMatrix { zoom_x : Z; zoom_y : Z }.

(** The effect of an attempt to create a file in the output directory:
    either the file holds [data], or the call raised and the directory
    holds what the failed call left behind under that name, if anything. *)
Inductive outcome : Type :=
| Stored (data : bytes)
| Failed (e : pyerr) (leftover : option bytes).

(** Calls the handlers make to their collaborators, in the order made. *)
Inductive Event : Type :=
| UploadRead (b : bytes)                 (* await f.read(), returning b *)
| ImageOpen (b : bytes)                  (* Image.open(io.BytesIO(b)) *)
| ImageVerify                            (* .verify() *)
| ImageConvert (mode : string)           (* .convert(mode) *)
| ImageSave (name fmt : string) (quality : option Z) (optimize : bool)
| Img2Pdf (images : list bytes)          (* img2pdf.convert *)
| FitzOpen (b : bytes)                   (* fitz.open(stream=b) *)
| GetPixmap (i : nat) (m : Matrix)       (* page.get_pixmap(matrix=m) *)
| ToBytes (i : nat) (fmt : string)       (* pix.tobytes(fmt) *)
| ReaderOpen (b : bytes)                 (* PyPDF2.PdfReader *)
| ReaderPages                            (* reader.pages *)
| MergerAppend (b : bytes)               (* merger.append *)
| MergerWrite (name : string)            (* open(..) + merger.write *)
| WriterAddPage (i : nat)                (* writer.add_page *)
| WriterWrite (i : nat) (name : string)  (* open(..) + writer.write *)
| FileWrite (name : string) (data : bytes) (* open(..,'wb') + write *)
| Listdir                                (* os.listdir(OUTPUT_DIR) *)
| Remove (name : string)                 (* os.remove *)
| LogRecord (msg : string).              (* a record handed to a logger *)

(** The output directory (entries in listing order), the number of
    [uuid4()] draws made so far, and the trace. *)
Record State : Type := mkState {
  outputs : list (string * bytes);
  draws : nat;
  trace : list Event
}.

(** The collaborators.  A library call returns [inr v] or raises
    [inl e]; a call that returns nothing uses [option pyerr]. *)
Record Env : Type := mkEnv {
  API_SECRET : option string;               (* os.getenv('API_SECRET') *)
  urandom16 : nat -> Z;                     (* the n-th os.urandom(16) *)
  (* the Unicode database, for text above code point 255 *)
  unicode_lower : PyStr.text -> PyStr.text;
  unicode_isspace : N -> bool;
  (* Pillow *)
  PILImage : Type;
  Image_open : bytes -> pyerr + PILImage;
  Image_verify : PILImage -> option pyerr;
  Image_convert : PILImage -> string -> pyerr + PILImage;
  Image_save : PILImage -> string -> string -> option Z -> bool -> outcome;
  (* img2pdf *)
  img2pdf_convert : list bytes -> pyerr + bytes;
  (* PyMuPDF; [doc_pages] is what starting the iteration of a document
     gives: its pages, or the exception of a document that opened but
     cannot be paged (an encrypted one); an error while a later page is
     loaded is an error of the first call on that page *)
  FitzDoc : Type;
  FitzPage : Type;
  Pixmap : Type;
  fitz_open : bytes -> pyerr + FitzDoc;
  doc_pages : FitzDoc -> pyerr + list FitzPage;
  get_pixmap : FitzPage -> Matrix -> pyerr + Pixmap;
  tobytes : Pixmap -> string -> pyerr + bytes;
  (* PyPDF2 *)
  Reader : Type;
  PdfPage : Type;
  PdfReader : bytes -> pyerr + Reader;
  reader_pages : Reader -> pyerr + list PdfPage;
  PdfMerger_append : list bytes -> bytes -> option pyerr;
  PdfMerger_write : list bytes -> string -> outcome;
  PdfWriter_add_page : PdfPage -> option pyerr;
  PdfWriter_write : PdfPage -> string -> outcome;
  (* the disk *)
  file_write : string -> bytes -> option (pyerr * option bytes);
  os_remove : string -> option pyerr
}.

(* ================================================================= *)
(** ** The output directory *)

Module Dir.

Definition t := list (string * bytes).

Definition listdir (d : t) : list string := map fst d.

(** Creating or truncating the file [name] and giving it [data]. *)
Fixpoint put (d : t) (name : string) (data : bytes) : t :=
  match d with
  | [] => [(name, data)]
  | (n, b) :: r =>
      if String.eqb n name then (name, data) :: r
      else (n, b) :: put r name data
  end.

(** Unlinking the entry [name]. *)
Fixpoint remove (d : t) (name : string) : t :=
  match d with
  | [] => []
  | (n, b) :: r =>
      if String.eqb n name then r else (n, b) :: remove r name
  end.


End Dir.

(* ================================================================= *)
(** ** The monad of the handlers *)

Definition M (A : Type) : Type := State -> result A * State.

Definition ret {A : Type} (a : A) : M A := fun s => (Ok a, s).

Definition raise {A : Type} (e : exn) : M A := fun s => (Raise e, s).

Definition bind {A B : Type} (m : M A) (k : A -> M B) : M B :=
  fun s =>
    match m s with
    | (Ok a, s') => k a s'
    | (Raise e, s') => (Raise e, s')
    end.

Declare Scope monad_scope.
Delimit Scope monad_scope with M.
Notation "x <- m ;; k" := (bind m (fun x => k))
  (at level 61, m at next level, right associativity) : monad_scope.
Notation "m ;; k" := (bind m (fun _ => k))
  (at level 61, right associativity) : monad_scope.
Local Open Scope monad_scope.

(** [try: body / except C: ...]: the clause returns [None] on an
    exception it does not match, which then propagates. *)
Definition try_except {A : Type} (body : M A) (clause : exn -> option (M A))
  : M A :=
  fun s =>
    match body s with
    | (Ok a, s') => (Ok a, s')
    | (Raise e, s') =>
        match clause e with
        | Some h => h s'
        | None => (Raise e, s')
        end
    end.

Definition emit (ev : Event) : M unit :=
  fun s => (Ok tt, mkState (outputs s) (draws s) (trace s ++ [ev])).

(** A library call that returns a value. *)
Definition call {A : Type} (ev : Event) (r : pyerr + A) : M A :=
  emit ev ;;
  match r with
  | inl e => raise (Uncaught e)
  | inr a => ret a
  end.

(** A step that makes no call of its own but may raise (starting the
    iteration over a library object). *)
Definition lift {A : Type} (r : pyerr + A) : M A :=
  match r with
  | inl e => raise (Uncaught e)
  | inr a => ret a
  end.

(** A library call that returns nothing. *)
Definition call_ (ev : Event) (r : option pyerr) : M unit :=
  emit ev ;;
  match r with
  | Some e => raise (Uncaught e)
  | None => ret tt
  end.

Definition set_outputs (d : Dir.t) : M unit :=
  fun s => (Ok tt, mkState d (draws s) (trace s)).

Definition get_outputs : M Dir.t := fun s => (Ok (outputs s), s).

(** An attempt to create [name] in the output directory. *)
Definition store (ev : Event) (name : string) (o : outcome) : M unit :=
  emit ev ;;
  d <- get_outputs ;;
  match o with
  | Stored data => set_outputs (Dir.put d name data)
  | Failed e None => raise (Uncaught e)
  | Failed e (Some part) =>
      set_outputs (Dir.put d name part) ;; raise (Uncaught e)
  end.

(** [str(e)] in an f-string; Starlette prints an [HTTPException] as
    its status, a colon and its detail. *)
Definition exn_str (e : exn) : string :=
  match e with
  | HTTPException c d => PyStr.of_nat (Z.to_nat c) ++ ": " ++ d
  | Uncaught (UnidentifiedImageError m) => m
  | Uncaught (OtherException m) => m
  end.

(** [except Exception]: every exception matches. *)
Definition except_Exception {A : Type} (h : exn -> M A) : exn -> option (M A) :=
  fun e => Some (h e).

(** [except UnidentifiedImageError]. *)
Definition except_UnidentifiedImageError {A : Type} (h : M A)
  : exn -> option (M A) :=
  fun e =>
    match e with
    | Uncaught (UnidentifiedImageError _) => Some h
    | _ => None
    end.

(** The status the client sees. *)
Definition http_status {A : Type} (r : result A) : Z :=
  match r with
  | Ok _ => 200
  | Raise (HTTPException c _) => c
  | Raise (Uncaught _) => 500
  end.

(* ================================================================= *)
(** ** main.py *)

Section Handlers.

Variable env : Env.

Definition dquote : string := String (ascii_of_nat 34) EmptyString.

(** [_check_secret] *)
Definition _check_secret (x_api_key : option string) : M unit :=
  if PyStr.truthy (API_SECRET env) then
    if negb (PyStr.truthy x_api_key)
       || negb (match x_api_key, API_SECRET env with
                | Some k, Some s => String.eqb k s
                | None, None => true
                | _, _ => false
                end)
    then raise (HTTPException 401 "Unauthorized")
    else ret tt
  else ret tt.

(** [uuid.uuid4().hex]: one more draw from the random source. *)
Definition uuid4_hex : M string :=
  fun s =>
    (Ok (Uuid.hex (Uuid.uuid4_int (urandom16 env (draws s)))),
     mkState (outputs s) (S (draws s)) (trace s)).

Definition name_of (prefix hex ext : string) : string :=
  prefix ++ "_" ++ hex ++ "." ++ ext.

(** [_unique_filename] *)
Definition _unique_filename (prefix ext : string) : M string :=
  h <- uuid4_hex ;;
  ret (name_of prefix h ext).

Definition read (f : UploadFile) : M bytes :=
  emit (UploadRead (content f)) ;; ret (content f).

Definition url_of (out_name : string) : string := "/outputs/" ++ out_name.

Definition file_response (out_name : string) (extra : list (string * json))
  : json :=
  JObj ([("success", JBool true);
         ("fileUrl", JStr (url_of out_name));
         ("filename", JStr out_name)] ++ extra).

Definition files_response (out_files : list string) : json :=
  JObj [("success", JBool true);
        ("files", JList (map JStr out_files));
        ("pageCount", JInt (Z.of_nat (List.length out_files)))].

(** [health] *)
Definition health : M json :=
  ret (JObj [("ok", JBool true); ("service", JStr "digit5-converter")]).

(** The [for f in files] loop of [image_to_pdf]. *)
Fixpoint read_images (files : list UploadFile) (images_bytes : list bytes)
  : M (list bytes) :=
  match files with
  | [] => ret images_bytes
  | f :: rest =>
      content <- read f ;;
      try_except
        (img <- call (ImageOpen content) (Image_open env content) ;;
         call_ ImageVerify (Image_verify env img))
        (except_Exception (fun _ =>
           raise (HTTPException 400
                    ("Uploaded file " ++ PyStr.fmt_opt (filename f)
                     ++ " is not a valid image.")))) ;;
      read_images rest (images_bytes ++ [content])
  end.

(** [image_to_pdf] *)
Definition image_to_pdf (x_api_key : option string)
           (files : list UploadFile) : M json :=
  _check_secret x_api_key ;;
  if match files with [] => true | _ => false end
     || (List.length files =? 0)%nat
  then raise (HTTPException 400
                ("No files uploaded. Use field name " ++ dquote ++ "file"
                 ++ dquote ++ "."))
  else
    images_bytes <- read_images files [] ;;
    pdf_bytes <-
      try_except
        (call (Img2Pdf images_bytes) (img2pdf_convert env images_bytes))
        (except_Exception (fun e =>
           raise (HTTPException 500
                    ("Failed to convert image to pdf: " ++ exn_str e)))) ;;
    out_name <- _unique_filename "converted" "pdf" ;;
    store (FileWrite out_name pdf_bytes) out_name
          (match file_write env out_name pdf_bytes with
           | None => Stored pdf_bytes
           | Some (e, part) => Failed e part
           end) ;;
    ret (file_response out_name []).

(** [scan_to_pdf] *)
Definition scan_to_pdf (x_api_key : option string)
           (files : list UploadFile) : M json :=
  image_to_pdf x_api_key files.

(** [Image.open(io.BytesIO(content)).convert('RGB')] under
    [except UnidentifiedImageError]. *)
Definition open_rgb (content : bytes) : M (PILImage env) :=
  try_except
    (img <- call (ImageOpen content) (Image_open env content) ;;
     call (ImageConvert "RGB") (Image_convert env img "RGB"))
    (except_UnidentifiedImageError
       (raise (HTTPException 400 "Invalid image file"))).

Definition upper_char (c : ascii) : ascii :=
  let n := nat_of_ascii c in
  if ((97 <=? n) && (n <=? 122))%nat then ascii_of_nat (n - 32) else c.

(** [str.upper], on the strings it is applied to here (ASCII). *)
Fixpoint upper (s : string) : string :=
  match s with
  | EmptyString => EmptyString
  | String c r => String (upper_char c) (upper r)
  end.

(** [target_format.lower().strip()] *)
Definition target_of (target_format : PyStr.text) : PyStr.text :=
  PyStr.tstrip (unicode_isspace env)
               (PyStr.tlower (unicode_lower env) target_format).

(** [image_to_image]; a target that passed the membership test is one of
    four ASCII words, which [PyStr.to_string] renders exactly. *)
Definition image_to_image (x_api_key : option string) (file : UploadFile)
           (target_format : PyStr.text) : M json :=
  _check_secret x_api_key ;;
  content <- read file ;;
  img <- open_rgb content ;;
  let target := target_of target_format in
  if negb (PyStr.tmem target
             [PyStr.of_string "png"; PyStr.of_string "jpeg";
              PyStr.of_string "jpg"; PyStr.of_string "webp"])
  then raise (HTTPException 400
                "Unsupported target_format. Use png, jpeg, webp")
  else
    let out_ext :=
      if PyStr.tmem target [PyStr.of_string "jpg"; PyStr.of_string "jpeg"]
      then "jpg" else PyStr.to_string target in
    out_name <- _unique_filename "converted_img" out_ext ;;
    let fmt := if String.eqb out_ext "jpg" then "JPEG" else upper out_ext in
    store (ImageSave out_name fmt None false) out_name
          (Image_save env img out_name fmt None false) ;;
    ret (file_response out_name []).

(** [image_compress] *)
Definition image_compress (x_api_key : option string) (file : UploadFile)
           (quality : Z) : M json :=
  _check_secret x_api_key ;;
  content <- read file ;;
  img <- open_rgb content ;;
  if (quality <? 5) || (quality >? 95)
  then raise (HTTPException 400 "Quality must be between 5 and 95")
  else
    out_name <- _unique_filename "compressed" "jpg" ;;
    store (ImageSave out_name "JPEG" (Some quality) true) out_name
          (Image_save env img out_name "JPEG" (Some quality) true) ;;
    ret (file_response out_name [("quality", JInt quality)]).

(** The [for i, page in enumerate(doc)] loop of [pdf_to_images]. *)
Fixpoint render_pages (i : nat) (pages : list (FitzPage env))
         (out_files : list string) : M (list string) :=
  match pages with
  | [] => ret out_files
  | page :: rest =>
      let m := mkMatrix 2 2 in
      pix <- call (GetPixmap i m) (get_pixmap env page m) ;;
      img_bytes <- call (ToBytes i "png") (tobytes env pix "png") ;;
      out_name <- _unique_filename ("page_" ++ PyStr.of_nat (i + 1)) "png" ;;
      store (FileWrite out_name img_bytes) out_name
            (match file_write env out_name img_bytes with
             | None => Stored img_bytes
             | Some (e, part) => Failed e part
             end) ;;
      render_pages (S i) rest (out_files ++ [url_of out_name])
  end.

(** [pdf_to_images] *)
Definition pdf_to_images (x_api_key : option string) (file : UploadFile)
  : M json :=
  _check_secret x_api_key ;;
  content <- read file ;;
  doc <- try_except
           (call (FitzOpen content) (fitz_open env content))
           (except_Exception (fun _ =>
              raise (HTTPException 400 "Invalid PDF file"))) ;;
  pages <- lift (doc_pages env doc) ;;
  out_files <- render_pages 0 pages [] ;;
  ret (files_response out_files).

(** The [for f in files] loop of [pdf_merge]; [appended] is what the
    merger holds. *)
Fixpoint append_all (files : list UploadFile) (appended : list bytes)
  : M (list bytes) :=
  match files with
  | [] => ret appended
  | f :: rest =>
      content <- read f ;;
      call_ (MergerAppend content) (PdfMerger_append env appended content) ;;
      append_all rest (appended ++ [content])
  end.

(** [pdf_merge]; [merger.close()] in the [finally] clause has no effect
    on the output directory. *)
Definition pdf_merge (x_api_key : option string) (files : list UploadFile)
  : M json :=
  _check_secret x_api_key ;;
  if match files with [] => true | _ => false end
     || (List.length files <? 2)%nat
  then raise (HTTPException 400 "Upload two or more PDF files to merge")
  else
    out_name <-
      try_except
        (appended <- append_all files [] ;;
         out_name <- _unique_filename "merged" "pdf" ;;
         store (MergerWrite out_name) out_name
               (PdfMerger_write env appended out_name) ;;
         ret out_name)
        (except_Exception (fun e =>
           raise (HTTPException 500 ("Merge error: " ++ exn_str e)))) ;;
    ret (file_response out_name []).

(** The [for i, page in enumerate(reader.pages)] loop of [pdf_split]. *)
Fixpoint split_pages (i : nat) (pages : list (PdfPage env))
         (out_files : list string) : M (list string) :=
  match pages with
  | [] => ret out_files
  | page :: rest =>
      call_ (WriterAddPage i) (PdfWriter_add_page env page) ;;
      out_name <- _unique_filename ("split_" ++ PyStr.of_nat (i + 1)) "pdf" ;;
      store (WriterWrite i out_name) out_name
            (PdfWriter_write env page out_name) ;;
      split_pages (S i) rest (out_files ++ [url_of out_name])
  end.

(** [pdf_split] *)
Definition pdf_split (x_api_key : option string) (file : UploadFile)
  : M json :=
  _check_secret x_api_key ;;
  content <- read file ;;
  reader <- try_except
              (call (ReaderOpen content) (PdfReader env content))
              (except_Exception (fun _ =>
                 raise (HTTPException 400 "Invalid PDF file"))) ;;
  pages <- call ReaderPages (reader_pages env reader) ;;
  out_files <- split_pages 0 pages [] ;;
  ret (files_response out_files).

(** [os.remove(os.path.join(OUTPUT_DIR, fn))] *)
Definition remove (fn : string) : M unit :=
  call_ (Remove fn) (os_remove env fn) ;;
  d <- get_outputs ;;
  set_outputs (Dir.remove d fn).

(** The [for fn in os.listdir(OUTPUT_DIR)] loop of [cleanup]. *)
Fixpoint remove_all (names : list string) (removed : Z) : M Z :=
  match names with
  | [] => ret removed
  | fn :: rest =>
      removed' <- try_except
                    (remove fn ;; ret (removed + 1))
                    (except_Exception (fun _ => ret removed)) ;;
      remove_all rest removed'
  end.

(** [cleanup]; the output directory exists (it is created when the module
    is loaded), so [os.listdir] returns. *)
Definition cleanup (x_api_key : option string) : M json :=
  _check_secret x_api_key ;;
  emit Listdir ;;
  d <- get_outputs ;;
  removed <- remove_all (Dir.listdir d) 0 ;;
  ret (JObj [("success", JBool true); ("removed", JInt removed)]).

(** The routes of the application. *)
Inductive Request : Type :=
| GetHealth
| ImageToPdf (x_api_key : option string) (files : list UploadFile)
| ScanToPdf (x_api_key : option string) (files : list UploadFile)
| ImageToImage (x_api_key : option string) (file : UploadFile)
               (target_format : PyStr.text)
| ImageCompress (x_api_key : option string) (file : UploadFile)
                (quality : Z)
| PdfToImages (x_api_key : option string) (file : UploadFile)
| PdfMerge (x_api_key : option string) (files : list UploadFile)
| PdfSplit (x_api_key : option string) (file : UploadFile)
| Cleanup (x_api_key : option string).

Definition handle (r : Request) : M json :=
  match r with
  | GetHealth => health
  | ImageToPdf k fs => image_to_pdf k fs
  | ScanToPdf k fs => scan_to_pdf k fs
  | ImageToImage k f t => image_to_image k f t
  | ImageCompress k f q => image_compress k f q
  | PdfToImages k f => pdf_to_images k f
  | PdfMerge k fs => pdf_merge k fs
  | PdfSplit k f => pdf_split k f
  | Cleanup k => cleanup k
  end.

End Handlers.

(* ================================================================= *)
(** ** A small concrete world

    Used to run the handlers on explicit inputs.  An image is any
    non-empty buffer that does not start with ['%']; an image that starts
    with byte 0x00 is truncated ([convert] raises).  A PDF is a buffer
    that starts with ['%'], and each following byte is one page; the page
    [0xff] cannot be processed.  The disk takes every write; the entry
    ["lost+found"] cannot be removed.  The n-th random draw is [n]. *)

Module Toy.

Import Byte.

Definition pct : byte := x25.

Definition is_pdf (b : bytes) : bool :=
  match b with
  | c :: _ => Byte.eqb c pct
  | [] => false
  end.

Definition open_image (b : bytes) : pyerr + bytes :=
  match b with
  | [] => inl (UnidentifiedImageError "cannot identify image file")
  | _ => if is_pdf b
         then inl (UnidentifiedImageError "cannot identify image file")
         else inr b
  end.

Definition convert (img : bytes) (mode : string) : pyerr + bytes :=
  match img with
  | x00 :: _ => inl (OtherException "image file is truncated")
  | _ => inr img
  end.

Definition pages_of (b : bytes) : pyerr + list byte :=
  match b with
  | c :: r => if Byte.eqb c pct then inr r
              else inl (OtherException "Failed to open stream")
  | [] => inl (OtherException "Failed to open stream")
  end.

Definition page_ok (p : byte) : option pyerr :=
  if Byte.eqb p xff then Some (OtherException "bad page") else None.

Definition pixmap (p : byte) (m : Matrix) : pyerr + bytes :=
  match page_ok p with
  | Some e => inl e
  | None => inr [p; p]
  end.

Definition env (secret : option string) : Env :=
  {| API_SECRET := secret;
     urandom16 := fun n => Z.of_nat n;
     unicode_lower := fun t => t;
     unicode_isspace := fun c => (c =? 12288)%N;
     PILImage := bytes;
     Image_open := open_image;
     Image_verify := fun _ => None;
     Image_convert := convert;
     Image_save := fun img _ _ _ _ => Stored img;
     img2pdf_convert := fun l => inr (pct :: List.concat l);
     FitzDoc := list byte;
     FitzPage := byte;
     Pixmap := bytes;
     fitz_open := pages_of;
     doc_pages := fun d => inr d;
     get_pixmap := pixmap;
     tobytes := fun pix _ => inr pix;
     Reader := list byte;
     PdfPage := byte;
     PdfReader := pages_of;
     reader_pages := fun r => inr r;
     PdfMerger_append := fun _ b =>
       if is_pdf b then None else Some (OtherException "EOF marker not found");
     PdfMerger_write := fun l _ => Stored (pct :: List.concat (map (@List.tl byte) l));
     PdfWriter_add_page := page_ok;
     PdfWriter_write := fun p _ => Stored [pct; p];
     file_write := fun _ _ => None;
     os_remove := fun n =>
       if String.eqb n "lost+found"
       then Some (OtherException "Is a directory") else None |}.

Definition st0 : State := mkState [] 0 [].

Definition upload (name : string) (b : bytes) : UploadFile :=
  mkUpload (Some name) b.

Definition png : bytes := [x89; x50].
Definition text : bytes := [].
Definition pdf2 : bytes := [pct; x01; x02].
Definition pdf_bad2 : bytes := [pct; x01; xff].
Definition pdf0 : bytes := [pct].

End Toy.


(* ================================================================= *)
(** ** Vocabulary of the contract *)

(** The key a route hands to the Auth Guard; [/health] has none. *)
Definition api_key_of (r : Request) : option (option string) :=
  match r with
  | GetHealth => None
  | ImageToPdf k _ | ScanToPdf k _ | PdfMerge k _ => Some k
  | ImageToImage k _ _ => Some k
  | ImageCompress k _ _ => Some k
  | PdfToImages k _ | PdfSplit k _ => Some k
  | Cleanup k => Some k
  end.

(** The Auth Guard in the words of the specification: no secret is
    configured (the variable is unset or empty), or the supplied key is
    the configured secret. *)
Definition guard_passes (env : Env) (key : option string) : Prop :=
  PyStr.truthy (API_SECRET env) = false \/ key = API_SECRET env.

Definition unauthorized : exn := HTTPException 401 "Unauthorized".

Definition is_upload_read (ev : Event) : bool :=
  match ev with
  | UploadRead _ => true
  | _ => false
  end.

(** The same upload under no file name, and the same request with every
    client-supplied file name erased. *)
Definition anonymous (u : UploadFile) : UploadFile :=
  mkUpload None (content u).

Definition anonymize (r : Request) : Request :=
  match r with
  | GetHealth => GetHealth
  | ImageToPdf k fs => ImageToPdf k (map anonymous fs)
  | ScanToPdf k fs => ScanToPdf k (map anonymous fs)
  | ImageToImage k f t => ImageToImage k (anonymous f) t
  | ImageCompress k f q => ImageCompress k (anonymous f) q
  | PdfToImages k f => PdfToImages k (anonymous f)
  | PdfMerge k fs => PdfMerge k (map anonymous fs)
  | PdfSplit k f => PdfSplit k (anonymous f)
  | Cleanup k => Cleanup k
  end.

(** The semantic prefixes and the extensions the handlers use. *)
Definition semantic_prefix (p : string) : Prop :=
  p = "converted" \/ p = "converted_img" \/ p = "compressed" \/ p = "merged"
  \/ (exists i : nat, p = ("page_" ++ PyStr.of_nat i)%string)
  \/ (exists i : nat, p = ("split_" ++ PyStr.of_nat i)%string).

Definition known_ext (e : string) : Prop :=
  e = "pdf" \/ e = "png" \/ e = "jpg" \/ e = "webp".

(** [n] is [<prefix>_<hex>.<ext>] where the hex suffix renders the
    128-bit value of a [uuid4()] drawn at a position in [lo, hi). *)
Definition fresh_name (env : Env) (lo hi : nat) (n : string) : Prop :=
  exists (prefix ext : string) (k : nat),
    (lo <= k < hi)%nat /\ semantic_prefix prefix /\ known_ext ext /\
    n = name_of prefix (Uuid.hex (Uuid.uuid4_int (urandom16 env k))) ext.

(** [st'] comes after [st]: draws were only added, and every entry of
    the directory is an old entry or carries a freshly generated name. *)
Definition extends (env : Env) (st st' : State) : Prop :=
  (draws st <= draws st')%nat /\
  forall n, In n (Dir.listdir (outputs st')) ->
            In n (Dir.listdir (outputs st)) \/
            fresh_name env (draws st) (draws st') n.

(** Two runs that end in the same state, and succeed together with the
    same value. *)
Definition agree {A : Type} (p q : result A * State) : Prop :=
  snd p = snd q /\ forall x, fst p = Ok x <-> fst q = Ok x.

(** [n] names an entry of the directory of [st'] and was generated
    between [st] and [st']. *)
Definition listed (env : Env) (st st' : State) (n : string) : Prop :=
  In n (Dir.listdir (outputs st')) /\
  fresh_name env (draws st) (draws st') n.

(** Image->Image in the words of the specification: the accepted
    targets, the encoding each one selects, and the extension of the
    artifact. *)
Definition valid_target (target : PyStr.text) : Prop :=
  target = PyStr.of_string "png" \/ target = PyStr.of_string "jpeg" \/
  target = PyStr.of_string "jpg" \/ target = PyStr.of_string "webp".

Definition encoding_of (target : PyStr.text) : string :=
  if PyStr.teqb target (PyStr.of_string "png") then "PNG"
  else if PyStr.teqb target (PyStr.of_string "webp") then "WEBP"
  else "JPEG".

Definition extension_of (target : PyStr.text) : string :=
  if PyStr.teqb target (PyStr.of_string "png") then "png"
  else if PyStr.teqb target (PyStr.of_string "webp") then "webp"
  else "jpg".

(** The names the page loops give to [n] consecutive pages, the first of
    index [i], when [d] draws were made before. *)
Fixpoint page_names (env : Env) (prefix ext : string) (i d n : nat)
  : list string :=
  match n with
  | O => []
  | S m =>
      name_of (prefix ++ PyStr.of_nat (i + 1))
              (Uuid.hex (Uuid.uuid4_int (urandom16 env d))) ext
      :: page_names env prefix ext (S i) (S d) m
  end.

(** Writing a list of files, in order. *)
Definition put_all (d : Dir.t) (l : list (string * bytes)) : Dir.t :=
  fold_left (fun acc nb => Dir.put acc (fst nb) (snd nb)) l d.

(** [b] is the PNG of page [p] rasterized under [fitz.Matrix(2, 2)]. *)
Definition rasterized (env : Env) (p : FitzPage env) (b : bytes) : Prop :=
  exists pix, get_pixmap env p (mkMatrix 2 2) = inr pix /\
              tobytes env pix "png" = inr b.

(** [os.remove] would succeed on this entry. *)
Definition removable (env : Env) (name : string) : bool :=
  match os_remove env name with
  | None => true
  | Some _ => false
  end.

(** This entry survives a cleanup. *)
Definition stays (env : Env) (e : string * bytes) : bool :=
  negb (removable env (fst e)).

Definition is_log_record (ev : Event) : bool :=
  match ev with
  | LogRecord _ => true
  | _ => false
  end.

(** Symbolic execution of a handler: unfold the monad, split on what the
    collaborators answer. *)
Ltac unfold_m :=
  unfold scan_to_pdf, image_to_pdf, image_to_image, image_compress,
    pdf_to_images, pdf_merge, pdf_split, cleanup, health, open_rgb, remove,
    bind, try_except, call, call_, lift, emit, ret, raise, store, read,
    _unique_filename, uuid4_hex, get_outputs, set_outputs,
    except_Exception, except_UnidentifiedImageError in *.

Ltac case_step :=
  match goal with
  | H : _ = _ |- _ => discriminate H
  | H : (_, _) = (_, _) |- _ => injection H as ? ?; subst
  | H : Ok _ = Ok _ |- _ => injection H as ?; subst
  | H : Raise _ = Raise _ |- _ => injection H as ?; subst
  | H : Some _ = Some _ |- _ => injection H as ?; subst
  | H : inl _ = inl _ |- _ => injection H as ?; subst
  | H : inr _ = inr _ |- _ => injection H as ?; subst
  | H : Stored _ = Stored _ |- _ => injection H as ?; subst
  | H : Failed _ _ = Failed _ _ |- _ => injection H as ? ?; subst
  | H : HTTPException _ _ = HTTPException _ _ |- _ => injection H as ? ?; subst
  | H : context [match ?x with _ => _ end] |- _ => destruct x eqn:?
  | |- context [match ?x with _ => _ end] => destruct x eqn:?
  end.

Ltac exec :=
  repeat (first [ progress unfold_m
                | progress cbn beta iota delta [outputs draws trace fst snd] in *
                | case_step ]);
  try discriminate.

(* ================================================================= *)
(** ** Vocabulary of the further properties *)

(** [Image.open(...).verify()] returns on this upload. *)
Definition verifiesb (env : Env) (f : UploadFile) : bool :=
  match Image_open env (content f) with
  | inr img =>
      match Image_verify env img with
      | None => true
      | Some _ => false
      end
  | inl _ => false
  end.

(** The calls [image_to_pdf] makes on one upload that verifies, and on
    one that does not. *)
Definition verify_events (f : UploadFile) : list Event :=
  [UploadRead (content f); ImageOpen (content f); ImageVerify].

Definition failed_verify_events (env : Env) (f : UploadFile) : list Event :=
  match Image_open env (content f) with
  | inl _ => [UploadRead (content f); ImageOpen (content f)]
  | inr _ => verify_events f
  end.

(** The calls [pdf_merge] makes on one upload. *)
Definition append_events (f : UploadFile) : list Event :=
  [UploadRead (content f); MergerAppend (content f)].

(** [str(e)] of a library exception. *)
Definition pyerr_msg (e : pyerr) : string :=
  match e with
  | UnidentifiedImageError m => m
  | OtherException m => m
  end.

Definition is_cleanup (r : Request) : bool :=
  match r with
  | Cleanup _ => true
  | _ => false
  end.

(** The routes that answer with one artifact. *)
Definition single_artifact (r : Request) : bool :=
  match r with
  | ImageToPdf _ _ | ScanToPdf _ _ | ImageToImage _ _ _
  | ImageCompress _ _ _ | PdfMerge _ _ => true
  | _ => false
  end.

(** What [Image.open(...).convert('RGB')] does on a buffer. *)
Definition decode (env : Env) (b : bytes) : pyerr + PILImage env :=
  match Image_open env b with
  | inl e => inl e
  | inr img => Image_convert env img "RGB"
  end.

(** The calls made while decoding. *)
Definition decode_events (env : Env) (b : bytes) : list Event :=
  match Image_open env b with
  | inl _ => [UploadRead b; ImageOpen b]
  | inr _ => [UploadRead b; ImageOpen b; ImageConvert "RGB"]
  end.

(** What the handlers of single images answer to a decoding error:
    only [UnidentifiedImageError] is caught. *)
Definition decode_failure (e : pyerr) : exn :=
  match e with
  | UnidentifiedImageError _ => HTTPException 400 "Invalid image file"
  | OtherException _ => Uncaught e
  end.


(** The calls [pdf_split] makes on the page of index [i], written under
    [name]. *)
Definition split_events (i : nat) (name : string) : list Event :=
  [WriterAddPage i; WriterWrite i name].


(** The routes whose error message quotes the name of an upload. *)
Definition quotes_file_name (r : Request) : bool :=
  match r with
  | ImageToPdf _ _ | ScanToPdf _ _ => true
  | _ => false
  end.

(** The concrete world again, with documents whose page list cannot be
    read (an encrypted file, say). *)
Definition locked_env : Env :=
  let e := Toy.env None in
  mkEnv (API_SECRET e) (urandom16 e) (unicode_lower e) (unicode_isspace e)
        (PILImage e) (Image_open e)
        (Image_verify e) (Image_convert e) (Image_save e)
        (img2pdf_convert e) (FitzDoc e) (FitzPage e) (Pixmap e)
        (fitz_open e)
        (fun _ => inl (OtherException "document closed or encrypted"))
        (get_pixmap e) (tobytes e) (Reader e) (PdfPage e) (PdfReader e)
        (fun _ => inl (OtherException "File has not been decrypted"))
        (PdfMerger_append e) (PdfMerger_write e) (PdfWriter_add_page e)
        (PdfWriter_write e) (file_write e) (os_remove e).

(** The six bits that [uuid.uuid4()] overwrites in the sixteen random
    bytes: the two variant bits (62, 63) and the four version bits
    (76 to 79). *)
Definition forced_bits : list Z := [62; 63; 76; 77; 78; 79].

(** A request writes only under names it has drawn: the draw counter never
    goes back, and the directory of a run that drew no name is the one it
    started from. *)
Definition writes_follow_draws (st st' : State) : Prop :=
  (draws st <= draws st')%nat /\
  (draws st' = draws st -> outputs st' = outputs st).

(** The concrete world again, with an imaging library built without WebP
    support: [img.save(..., format='WEBP')] raises. *)
Definition nowebp_env : Env :=
  let e := Toy.env None in
  mkEnv (API_SECRET e) (urandom16 e) (unicode_lower e) (unicode_isspace e)
        (PILImage e) (Image_open e)
        (Image_verify e) (Image_convert e)
        (fun img _ fmt _ _ =>
           if String.eqb fmt "WEBP"
           then Failed (OtherException "encoder webp not available") None
           else Stored img)
        (img2pdf_convert e) (FitzDoc e) (FitzPage e) (Pixmap e)
        (fitz_open e) (doc_pages e)
        (get_pixmap e) (tobytes e) (Reader e) (PdfPage e) (PdfReader e)
        (reader_pages e)
        (PdfMerger_append e) (PdfMerger_write e) (PdfWriter_add_page e)
        (PdfWriter_write e) (file_write e) (os_remove e).

(** The disk takes the write of each of these files. *)
Definition written (env : Env) (l : list (string * bytes)) : Prop :=
  Forall (fun nb => file_write env (fst nb) (snd nb) = None) l.

(** Each of these pages was taken by a writer of its own, which wrote
    these bytes under the name drawn for the page. *)
Definition split_stored (env : Env) (pages : list (PdfPage env))
           (names : list string) (datas : list bytes) : Prop :=
  Forall2 (fun pn b =>
             PdfWriter_add_page env (fst pn) = None /\
             PdfWriter_write env (fst pn) (snd pn) = Stored b)
          (combine pages names) datas.

(** What a failed write leaves in the directory: the part of the file
    that reached the disk, if any. *)
Definition left_behind (d : Dir.t) (name : string) (part : option bytes)
  : Dir.t :=
  match part with
  | Some b => Dir.put d name b
  | None => d
  end.

(* ================================================================= *)
(** * Properties *)

(** ** Auth Guard *)

Lemma check_secret_pass (env : Env) (key : option string) (st : State) :
  guard_passes env key -> _check_secret env key st = (Ok tt, st).
Proof.
  unfold guard_passes, _check_secret.
  destruct (API_SECRET env) as [s|]; simpl; [|reflexivity].
  intros [H|H].
  - rewrite H. reflexivity.
  - subst key. destruct (negb (s =? EmptyString)%string) eqn:E; [|reflexivity].
    simpl. rewrite E, String.eqb_refl. reflexivity.
Qed.

Lemma check_secret_fail (env : Env) (key : option string) (st : State) :
  ~ guard_passes env key -> _check_secret env key st = (Raise unauthorized, st).
Proof.
  unfold guard_passes, _check_secret. intros H.
  destruct (API_SECRET env) as [s|]; simpl in *; [|tauto].
  destruct (negb (s =? EmptyString)%string) eqn:E; [|tauto].
  destruct key as [k|]; simpl; [|reflexivity].
  destruct (negb (k =? EmptyString)%string); simpl; [|reflexivity].
  destruct (String.eqb_spec k s); [subst; tauto | reflexivity].
Qed.

Lemma guard_passes_dec (env : Env) (key : option string) :
  guard_passes env key \/ ~ guard_passes env key.
Proof.
  unfold guard_passes.
  destruct (PyStr.truthy (API_SECRET env)); [|auto].
  destruct (API_SECRET env) as [s|], key as [k|];
    try (right; intros [H|H]; discriminate); auto.
  destruct (String.eqb_spec k s); [subst; auto|].
  right; intros [H|H]; [discriminate | congruence].
Qed.

(** The first step of every guarded handler. *)
Ltac auth env key H :=
  let G := fresh "G" in
  unfold bind at 1 in H;
  destruct (guard_passes_dec env key) as [G|G];
  [ rewrite (check_secret_pass _ _ _ G) in H
  | rewrite (check_secret_fail _ _ _ G) in H ].

(** C1.  On every route that takes an API key, the Auth Guard passes
    exactly when no secret is configured or the supplied key is the
    configured secret; otherwise the request fails with
    [HTTPException(401, 'Unauthorized')] and the state is the initial one:
    nothing was written, and no upload was read. *)
Theorem C1_auth_guard (env : Env) (r : Request) (key : option string)
        (st : State) :
  api_key_of r = Some key ->
  (_check_secret env key st = (Ok tt, st) <-> guard_passes env key) /\
  (~ guard_passes env key ->
   handle env r st = (Raise unauthorized, st) /\
   http_status (fst (handle env r st)) = 401 /\
   existsb is_upload_read (trace (snd (handle env r st)))
   = existsb is_upload_read (trace st)).
Proof.
  intros Hk. split.
  - split; [|apply check_secret_pass].
    intros H. destruct (guard_passes_dec env key) as [G|G]; [exact G|].
    rewrite (check_secret_fail _ _ _ G) in H. discriminate.
  - intros G.
    assert (E : handle env r st = (Raise unauthorized, st)).
    { destruct r; simpl in Hk; try discriminate; injection Hk as ->; simpl;
        unfold scan_to_pdf, image_to_pdf, image_to_image, image_compress,
               pdf_to_images, pdf_merge, pdf_split, cleanup;
        unfold bind at 1; rewrite (check_secret_fail _ _ _ G); reflexivity. }
    rewrite E. simpl. auto.
Qed.

Lemma C1_auth_guard_witness :
  handle (Toy.env (Some "s3cret"))
         (PdfSplit (Some "guess") (Toy.upload "a.pdf" Toy.pdf2)) Toy.st0
  = (Raise unauthorized, Toy.st0).
Proof.
  refine (proj1 (proj2 (C1_auth_guard (Toy.env (Some "s3cret"))
                          (PdfSplit (Some "guess") (Toy.upload "a.pdf" Toy.pdf2))
                          (Some "guess") Toy.st0 eq_refl) _)).
  intros [H|H]; discriminate.
Defined.

(** ** The alias *)

(** C7.  [scan_to_pdf] is [image_to_pdf]: on every key, every list of
    uploads and every state, the two routes give the same response (or the
    same error) and leave the same state, artifacts included. *)
Theorem C7_scan_is_image_to_pdf (env : Env) (key : option string)
        (files : list UploadFile) (st : State) :
  handle env (ScanToPdf key files) st = handle env (ImageToPdf key files) st
  /\ scan_to_pdf env key files st = image_to_pdf env key files st.
Proof. split; reflexivity. Qed.

(** ** Generated names *)

Module UuidFacts.

Import Uuid.

Lemma below_two128 (a : Z) :
  0 <= a -> (forall n, 128 <= n -> Z.testbit a n = false) -> a < two128.
Proof.
  intros Ha Hbits.
  assert (E : a = a mod two128).
  { apply Z.bits_inj'. intros n Hn. unfold two128.
    destruct (Z.lt_ge_cases n 128) as [L|L].
    - now rewrite Z.mod_pow2_bits_low.
    - rewrite Z.mod_pow2_bits_high by lia. now apply Hbits. }
  rewrite E. apply Z.mod_pos_bound. reflexivity.
Qed.

Lemma const_bit_high (c n : Z) :
  0 <= c -> Z.log2 c < 128 -> 128 <= n -> Z.testbit c n = false.
Proof. intros. apply Z.bits_above_log2; lia. Qed.

Lemma uuid4_int_range (r : Z) : 0 <= uuid4_int r < two128.
Proof.
  unfold uuid4_int, from_bytes.
  assert (H0 : 0 <= r mod two128) by (apply Z.mod_pos_bound; reflexivity).
  split.
  - apply Z.lor_nonneg. split; [|vm_compute; discriminate].
    apply Z.land_nonneg. left.
    apply Z.lor_nonneg. split; [|vm_compute; discriminate].
    apply Z.land_nonneg. now left.
  - apply below_two128.
    + apply Z.lor_nonneg. split; [|vm_compute; discriminate].
      apply Z.land_nonneg. left.
      apply Z.lor_nonneg. split; [|vm_compute; discriminate].
      apply Z.land_nonneg. now left.
    + intros n Hn.
      rewrite Z.lor_spec, Z.land_spec, Z.lor_spec, Z.land_spec.
      unfold two128. rewrite Z.mod_pow2_bits_high by lia.
      rewrite (const_bit_high (Z.shiftl 32768 48) n);
        [| vm_compute; discriminate | reflexivity | exact Hn].
      rewrite (const_bit_high (Z.shiftl 4 76) n);
        [| vm_compute; discriminate | reflexivity | exact Hn].
      reflexivity.
Qed.

(** The version nibble is 4 and the variant bits are [10]. *)
Lemma uuid4_int_version (r : Z) :
  Z.land (Z.shiftr (uuid4_int r) 76) 15 = 4
  /\ Z.land (Z.shiftr (uuid4_int r) 62) 3 = 2.
Proof.
  unfold uuid4_int. set (x := from_bytes r).
  split; apply Z.bits_inj'; intros n Hn;
    rewrite Z.land_spec, Z.shiftr_spec by lia;
    rewrite Z.lor_spec, Z.land_spec, Z.lor_spec, Z.land_spec;
    rewrite !Z.lnot_spec by lia;
    rewrite !Z.shiftl_spec by lia.
  - destruct (Z.lt_ge_cases n 4) as [L|L].
    + assert (n = 0 \/ n = 1 \/ n = 2 \/ n = 3) as [-> | [-> | [-> | ->]]] by lia;
        simpl; rewrite ?andb_false_r, ?orb_true_r, ?orb_false_r;
        reflexivity.
    + rewrite (Z.bits_above_log2 15 n) by (simpl; lia).
      rewrite (Z.bits_above_log2 4 n) by (simpl; lia).
      now rewrite andb_false_r.
  - destruct (Z.lt_ge_cases n 2) as [L|L].
    + assert (n = 0 \/ n = 1) as [-> | ->] by lia;
        simpl; rewrite ?andb_false_r, ?andb_true_r, ?orb_true_r,
                 ?orb_false_r; reflexivity.
    + rewrite (Z.bits_above_log2 3 n) by (simpl; lia).
      rewrite (Z.bits_above_log2 2 n) by (simpl; lia).
      now rewrite andb_false_r.
Qed.

Lemma digit_cases (d : Z) :
  0 <= d < 16 ->
  d = 0 \/ d = 1 \/ d = 2 \/ d = 3 \/ d = 4 \/ d = 5 \/ d = 6 \/ d = 7 \/
  d = 8 \/ d = 9 \/ d = 10 \/ d = 11 \/ d = 12 \/ d = 13 \/ d = 14 \/ d = 15.
Proof. lia. Qed.

Lemma hex_digit_ok (d : Z) :
  0 <= d < 16 ->
  is_hex_char (hex_digit d) = true /\ digit_val (hex_digit d) = d.
Proof.
  intros H. apply digit_cases in H.
  repeat (destruct H as [-> | H]; [split; reflexivity|]).
  subst. split; reflexivity.
Qed.

Lemma hex_digits_length (n : nat) : forall v acc,
  String.length (hex_digits n v acc) = (n + String.length acc)%nat.
Proof.
  induction n as [|k IH]; intros v acc; simpl; [reflexivity|].
  rewrite IH. simpl. lia.
Qed.

Lemma hex_digits_all_hex (n : nat) : forall v acc,
  all_hex acc = true -> all_hex (hex_digits n v acc) = true.
Proof.
  induction n as [|k IH]; intros v acc H; simpl; [exact H|].
  apply IH. simpl. rewrite H.
  destruct (hex_digit_ok (v mod 16)) as [-> _]; [|reflexivity].
  apply Z.mod_pos_bound. reflexivity.
Qed.

Lemma unhex_hex_digits (n : nat) : forall v acc a,
  unhex_from a (hex_digits n v acc)
  = unhex_from (a * 16 ^ Z.of_nat n + v mod 16 ^ Z.of_nat n) acc.
Proof.
  induction n as [|k IH]; intros v acc a.
  - simpl. rewrite Z.mod_1_r. f_equal. lia.
  - cbn [hex_digits]. rewrite IH. cbn [unhex_from]. f_equal.
    destruct (hex_digit_ok (v mod 16)) as [_ ->];
      [apply Z.mod_pos_bound; reflexivity|].
    rewrite Nat2Z.inj_succ, Z.pow_succ_r by lia.
    rewrite (Z.rem_mul_r v 16 (16 ^ Z.of_nat k)) by lia.
    lia.
Qed.

Lemma hex_facts (v : Z) :
  0 <= v < two128 ->
  String.length (hex v) = 32%nat /\ all_hex (hex v) = true
  /\ unhex (hex v) = v.
Proof.
  intros Hv. unfold hex, unhex. split; [|split].
  - now rewrite hex_digits_length.
  - now apply hex_digits_all_hex.
  - rewrite unhex_hex_digits. simpl unhex_from.
    change (16 ^ Z.of_nat 32) with two128.
    rewrite Z.mod_small by exact Hv. reflexivity.
Qed.

(** Distinct 128-bit values render as distinct suffixes. *)
Lemma hex_inj (v w : Z) :
  0 <= v < two128 -> 0 <= w < two128 -> hex v = hex w -> v = w.
Proof.
  intros Hv Hw E.
  destruct (hex_facts v Hv) as (_ & _ & <-).
  destruct (hex_facts w Hw) as (_ & _ & <-).
  now rewrite E.
Qed.

End UuidFacts.

(** ** The output directory only grows by generated names *)

Lemma listdir_put (d : Dir.t) (n : string) (b : bytes) (x : string) :
  In x (Dir.listdir (Dir.put d n b)) <-> In x (Dir.listdir d) \/ x = n.
Proof.
  induction d as [|[m c] r IH]; simpl.
  - intuition.
  - destruct (String.eqb_spec m n); simpl; [subst; intuition|].
    rewrite IH. intuition.
Qed.

Lemma listdir_remove (d : Dir.t) (n x : string) :
  In x (Dir.listdir (Dir.remove d n)) -> In x (Dir.listdir d).
Proof.
  induction d as [|[m c] r IH]; simpl; [auto|].
  destruct (String.eqb m n); simpl; intuition.
Qed.

Lemma extends_refl (env : Env) (st : State) : extends env st st.
Proof. split; auto. Qed.

Lemma extends_trans (env : Env) (s1 s2 s3 : State) :
  extends env s1 s2 -> extends env s2 s3 -> extends env s1 s3.
Proof.
  intros [L1 H1] [L2 H2]. split; [lia|].
  intros n Hn. destruct (H2 n Hn) as [Hin|F].
  - destruct (H1 n Hin) as [Hin'|F]; [now left|right].
    destruct F as (p & e & k & Hk & Hp & He & ->).
    exists p, e, k. repeat split; auto; lia.
  - right. destruct F as (p & e & k & Hk & Hp & He & ->).
    exists p, e, k. repeat split; auto; lia.
Qed.

Lemma extends_same (env : Env) (st st' : State) :
  outputs st' = outputs st -> (draws st <= draws st')%nat ->
  extends env st st'.
Proof. intros E L. split; [exact L|]. rewrite E. auto. Qed.

Lemma extends_eq_l (env : Env) (st s s' : State) :
  outputs s = outputs st -> draws s = draws st ->
  extends env s s' -> extends env st s'.
Proof. unfold extends. intros -> ->. auto. Qed.

Lemma extends_put (env : Env) (st : State) (p e : string) (data : bytes)
      (t : list Event) :
  semantic_prefix p -> known_ext e ->
  extends env st
    (mkState (Dir.put (outputs st)
                (name_of p (Uuid.hex (Uuid.uuid4_int (urandom16 env (draws st)))) e)
                data)
             (S (draws st)) t).
Proof.
  intros Hp He. split; simpl; [lia|].
  intros n Hn. apply listdir_put in Hn. destruct Hn as [Hn| ->]; [now left|].
  right. exists p, e, (draws st). repeat split; auto.
Qed.

Lemma page_prefix (i : nat) : semantic_prefix ("page_" ++ PyStr.of_nat i).
Proof. unfold semantic_prefix. do 4 right. left. now exists i. Qed.

Lemma split_prefix (i : nat) : semantic_prefix ("split_" ++ PyStr.of_nat i).
Proof. unfold semantic_prefix. do 5 right. now exists i. Qed.

Lemma teqb_eq (a b : PyStr.text) : PyStr.teqb a b = true <-> a = b.
Proof.
  revert b. induction a as [|x a IH]; intros [|y b]; cbn;
    try (split; [discriminate|discriminate]); [tauto|].
  rewrite andb_true_iff, N.eqb_eq, IH. split.
  - intros [-> ->]. reflexivity.
  - intros H. injection H as -> ->. auto.
Qed.

Lemma tmem_targets (target : PyStr.text) :
  PyStr.tmem target
    [PyStr.of_string "png"; PyStr.of_string "jpeg";
     PyStr.of_string "jpg"; PyStr.of_string "webp"] = true
  <-> valid_target target.
Proof.
  unfold PyStr.tmem, valid_target. rewrite !orb_true_iff, !teqb_eq.
  intuition discriminate.
Qed.

Lemma target_ext (target : PyStr.text) :
  PyStr.tmem target
    [PyStr.of_string "png"; PyStr.of_string "jpeg";
     PyStr.of_string "jpg"; PyStr.of_string "webp"] = true ->
  known_ext (if PyStr.tmem target
                  [PyStr.of_string "jpg"; PyStr.of_string "jpeg"]
             then "jpg" else PyStr.to_string target).
Proof.
  intros H. apply tmem_targets in H. unfold known_ext.
  destruct H as [-> | [-> | [-> | ->]]]; cbn; auto.
Qed.


Ltac solve_extends :=
  first
    [ apply extends_refl
    | apply extends_same; simpl; [reflexivity | lia]
    | apply extends_put;
      [ first [ apply page_prefix | apply split_prefix
              | unfold semantic_prefix; tauto ]
      | unfold known_ext; tauto ] ].

Section Grows.

Variable env : Env.

Lemma read_images_state (files : list UploadFile) : forall acc st r st',
  read_images env files acc st = (r, st') ->
  outputs st' = outputs st /\ draws st' = draws st.
Proof.
  induction files as [|f rest IH]; intros acc st r st' H;
    cbn [read_images] in H.
  - exec. auto.
  - exec; auto.
    all: apply IH in H; cbn in H; auto.
Qed.

Lemma append_all_state (files : list UploadFile) : forall acc st r st',
  append_all env files acc st = (r, st') ->
  outputs st' = outputs st /\ draws st' = draws st.
Proof.
  induction files as [|f rest IH]; intros acc st r st' H;
    cbn [append_all] in H.
  - exec. auto.
  - exec; auto.
    all: apply IH in H; cbn in H; auto.
Qed.

Lemma render_pages_extends (pages : list (FitzPage env)) :
  forall i acc st r st',
    render_pages env i pages acc st = (r, st') -> extends env st st'.
Proof.
  induction pages as [|p rest IH]; intros i acc st r st' H;
    cbn [render_pages] in H.
  - exec. solve_extends.
  - exec; try solve_extends.
    all: apply IH in H; eapply extends_trans; [|exact H]; solve_extends.
Qed.

Lemma split_pages_extends (pages : list (PdfPage env)) :
  forall i acc st r st',
    split_pages env i pages acc st = (r, st') -> extends env st st'.
Proof.
  induction pages as [|p rest IH]; intros i acc st r st' H;
    cbn [split_pages] in H.
  - exec. solve_extends.
  - exec; try solve_extends.
    all: apply IH in H; eapply extends_trans; [|exact H]; solve_extends.
Qed.

Lemma remove_all_shrinks (names : list string) : forall c st r st',
  remove_all env names c st = (r, st') ->
  draws st' = draws st /\
  forall n, In n (Dir.listdir (outputs st')) ->
            In n (Dir.listdir (outputs st)).
Proof.
  induction names as [|x rest IH]; intros c st r st' H;
    cbn [remove_all] in H.
  - exec. auto.
  - exec.
    all: apply IH in H; cbn in H; destruct H as [Hd Hn]; split; auto.
    intros n Hin. apply Hn in Hin. now apply listdir_remove in Hin.
Qed.

Lemma handle_extends (r : Request) (st : State) :
  extends env st (snd (handle env r st)).
Proof.
  destruct (handle env r st) as [res st'] eqn:H. simpl.
  destruct r; cbn [handle] in H.
  - exec. solve_extends.
  - unfold scan_to_pdf, image_to_pdf in H.
    auth env x_api_key H; [|exec; solve_extends].
    exec; try solve_extends.
    all: match goal with
         | E : read_images _ _ _ _ = _ |- _ =>
             apply read_images_state in E; cbn in E; destruct E as [E1 E2]
         end.
    all: eapply extends_eq_l; [exact E1 | exact E2 | solve_extends].
  - unfold scan_to_pdf, image_to_pdf in H.
    auth env x_api_key H; [|exec; solve_extends].
    exec; try solve_extends.
    all: match goal with
         | E : read_images _ _ _ _ = _ |- _ =>
             apply read_images_state in E; cbn in E; destruct E as [E1 E2]
         end.
    all: eapply extends_eq_l; [exact E1 | exact E2 | solve_extends].
  - unfold image_to_image in H.
    auth env x_api_key H; [|exec; solve_extends].
    destruct (PyStr.tmem (target_of env target_format)
                [PyStr.of_string "png"; PyStr.of_string "jpeg";
                 PyStr.of_string "jpg"; PyStr.of_string "webp"]) eqn:Hm.
    + pose proof (target_ext _ Hm) as Hext.
      exec; try solve_extends.
      all: apply extends_put; [unfold semantic_prefix; tauto | exact Hext].
    + exec; solve_extends.
  - unfold image_compress in H.
    auth env x_api_key H; [|exec; solve_extends].
    exec; solve_extends.
  - unfold pdf_to_images in H.
    auth env x_api_key H; [|exec; solve_extends].
    exec; try solve_extends.
    all: match goal with
         | E : render_pages _ _ _ _ _ = _ |- _ =>
             apply render_pages_extends in E;
             eapply extends_trans; [|exact E]; solve_extends
         end.
  - unfold pdf_merge in H.
    auth env x_api_key H; [|exec; solve_extends].
    exec; try solve_extends.
    all: match goal with
         | E : append_all _ _ _ _ = _ |- _ =>
             apply append_all_state in E; cbn in E; destruct E as [E1 E2]
         end.
    all: eapply extends_eq_l; [exact E1 | exact E2 | solve_extends].
  - unfold pdf_split in H.
    auth env x_api_key H; [|exec; solve_extends].
    exec; try solve_extends.
    all: match goal with
         | E : split_pages _ _ _ _ _ = _ |- _ =>
             apply split_pages_extends in E;
             eapply extends_trans; [|exact E]; solve_extends
         end.
  - unfold cleanup in H.
    auth env x_api_key H; [|exec; solve_extends].
    exec.
    all: match goal with
         | E : remove_all _ _ _ _ = _ |- _ =>
             apply remove_all_shrinks in E; cbn in E; destruct E as [E1 E2]
         end.
    all: split; [lia | auto].
Qed.

End Grows.

(** ** Client-supplied file names do not reach the output directory *)

Lemma bind_ext {A B : Type} (m : M A) (k1 k2 : A -> M B) (st : State) :
  (forall a s, k1 a s = k2 a s) -> bind m k1 st = bind m k2 st.
Proof.
  intros H. unfold bind. destruct (m st) as [[a|e] s]; [apply H|reflexivity].
Qed.

Lemma bind_cong_l {A B : Type} (m1 m2 : M A) (k : A -> M B) (st : State) :
  m1 st = m2 st -> bind m1 k st = bind m2 k st.
Proof. intros H. unfold bind. now rewrite H. Qed.

Lemma try_except_cong {A : Type} (b1 b2 : M A) (h : exn -> option (M A))
      (st : State) :
  b1 st = b2 st -> try_except b1 h st = try_except b2 h st.
Proof. intros H. unfold try_except. now rewrite H. Qed.

Lemma agree_refl {A : Type} (p : result A * State) : agree p p.
Proof. split; [reflexivity|tauto]. Qed.

Lemma bind_agree {A B : Type} (m1 m2 : M A) (k1 k2 : A -> M B) (st : State) :
  agree (m1 st) (m2 st) ->
  (forall a s, agree (k1 a s) (k2 a s)) ->
  agree (bind m1 k1 st) (bind m2 k2 st).
Proof.
  unfold agree, bind. intros [Hs Hr] Hk.
  destruct (m1 st) as [[a|e] s1], (m2 st) as [[b|e'] s2];
    cbn [fst snd] in *; subst.
  - assert (a = b) as -> by (destruct (Hr a) as [Hr1 _];
                             specialize (Hr1 eq_refl); congruence).
    apply Hk.
  - destruct (Hr a) as [Hr1 _]. specialize (Hr1 eq_refl). discriminate.
  - destruct (Hr b) as [_ Hr2]. specialize (Hr2 eq_refl). discriminate.
  - split; [reflexivity|]. intros x; split; discriminate.
Qed.

Lemma try_except_agree {A : Type} (body : M A) (h1 h2 : exn -> M A)
      (st : State) :
  (forall e s, agree (h1 e s) (h2 e s)) ->
  agree (try_except body (except_Exception h1) st)
        (try_except body (except_Exception h2) st).
Proof.
  intros H. unfold try_except, except_Exception.
  destruct (body st) as [[a|e] s]; [apply agree_refl | apply H].
Qed.

Lemma raise_agree {A : Type} (e1 e2 : exn) (s : State) :
  agree (@raise A e1 s) (@raise A e2 s).
Proof. split; [reflexivity|]. intros x; split; discriminate. Qed.

Section FileNames.

Variable env : Env.

Lemma append_all_anonymous (files : list UploadFile) : forall acc st,
  append_all env (map anonymous files) acc st = append_all env files acc st.
Proof.
  induction files as [|f rest IH]; intros acc st; [reflexivity|].
  cbn [map append_all]. change (read (anonymous f)) with (read f).
  apply bind_ext. intros a s. apply bind_ext. intros _ s'. apply IH.
Qed.

(** The loop of [image_to_pdf] names the upload in its error message
    only. *)
Lemma read_images_anonymous (files : list UploadFile) : forall acc st,
  agree (read_images env (map anonymous files) acc st)
        (read_images env files acc st).
Proof.
  induction files as [|f rest IH]; intros acc st; [apply agree_refl|].
  cbn [map read_images]. change (read (anonymous f)) with (read f).
  apply bind_agree; [apply agree_refl|]. intros a s.
  apply bind_agree; [|intros; apply IH].
  apply try_except_agree. intros. apply raise_agree.
Qed.

Lemma image_to_pdf_anonymous (key : option string)
      (files : list UploadFile) (st : State) :
  agree (image_to_pdf env key (map anonymous files) st)
        (image_to_pdf env key files st).
Proof.
  unfold image_to_pdf.
  apply bind_agree; [apply agree_refl|]. intros _ s.
  rewrite length_map.
  destruct files as [|f rest]; [apply agree_refl|].
  cbn [map orb Nat.eqb List.length].
  apply bind_agree; [apply (read_images_anonymous (f :: rest))|].
  intros. apply agree_refl.
Qed.

Lemma pdf_merge_anonymous (key : option string)
      (files : list UploadFile) (st : State) :
  pdf_merge env key (map anonymous files) st = pdf_merge env key files st.
Proof.
  unfold pdf_merge. apply bind_ext. intros _ s.
  rewrite length_map.
  destruct files as [|f rest]; [reflexivity|].
  cbn [map orb]. destruct (_ <? _)%nat; [reflexivity|].
  apply bind_cong_l. apply try_except_cong. apply bind_cong_l.
  apply (append_all_anonymous (f :: rest)).
Qed.

Lemma handle_anonymize (r : Request) (st : State) :
  snd (handle env (anonymize r) st) = snd (handle env r st).
Proof.
  destruct r; cbn [handle anonymize]; try reflexivity.
  - apply image_to_pdf_anonymous.
  - apply image_to_pdf_anonymous.
  - now rewrite pdf_merge_anonymous.
Qed.

End FileNames.

(** ** Cleanup *)

Lemma dir_remove_app (kept rest : Dir.t) (n : string) (b : bytes) :
  Forall (fun e => fst e <> n) kept ->
  Dir.remove (kept ++ (n, b) :: rest) n = kept ++ rest.
Proof.
  induction 1 as [|[m c] kept Hm _ IH]; simpl.
  - now rewrite String.eqb_refl.
  - simpl in Hm. destruct (String.eqb_spec m n); [contradiction|].
    now rewrite IH.
Qed.

Section CleanupLoop.

Variable env : Env.

Lemma remove_step (fn : string) (c : Z) (st : State) :
  try_except (remove env fn ;; ret (c + 1))
             (except_Exception (fun _ => ret c)) st
  = if removable env fn
    then (Ok (c + 1),
          mkState (Dir.remove (outputs st) fn) (draws st)
                  (trace st ++ [Remove fn]))
    else (Ok c, mkState (outputs st) (draws st) (trace st ++ [Remove fn])).
Proof.
  unfold removable.
  cbv beta iota delta [try_except remove bind call_ emit ret raise
                       get_outputs set_outputs except_Exception
                       outputs draws trace].
  destruct (os_remove env fn); reflexivity.
Qed.

Lemma remove_all_run (rest : Dir.t) : forall kept c st,
  outputs st = kept ++ rest ->
  Forall (fun e => removable env (fst e) = false) kept ->
  remove_all env (Dir.listdir rest) c st
  = (Ok (c + Z.of_nat (List.length (filter (removable env) (Dir.listdir rest)))),
     mkState (kept ++ filter (stays env) rest) (draws st)
             (trace st ++ map Remove (Dir.listdir rest))).
Proof.
  induction rest as [|[n b] rest IH]; intros kept c st Hout Hkept.
  - cbn. unfold ret. rewrite app_nil_r in Hout.
    rewrite Z.add_0_r, !app_nil_r, <- Hout. now destruct st.
  - change (Dir.listdir ((n, b) :: rest)) with (n :: Dir.listdir rest).
    cbn [map remove_all filter]. unfold stays at 1. cbn [fst].
    unfold bind at 1. rewrite remove_step.
    destruct (removable env n) eqn:En; cbn [negb].
    + rewrite (IH kept).
      * cbn [outputs draws trace List.length]. rewrite <- !app_assoc.
        f_equal. f_equal. lia.
      * cbn [outputs]. rewrite Hout. apply dir_remove_app.
        eapply Forall_impl; [|exact Hkept]. intros [m c'] Hm; cbn in *.
        intros ->. congruence.
      * exact Hkept.
    + rewrite (IH (kept ++ [(n, b)])).
      * cbn [outputs draws trace]. rewrite <- !app_assoc. reflexivity.
      * cbn [outputs]. rewrite Hout, <- app_assoc. reflexivity.
      * apply Forall_app. split; [exact Hkept|].
        constructor; [exact En|constructor].
Qed.

Lemma filter_split_length (d : Dir.t) :
  (List.length (filter (removable env) (Dir.listdir d))
   + List.length (filter (stays env) d) = List.length d)%nat.
Proof.
  induction d as [|[n b] d IH]; [reflexivity|].
  cbn [Dir.listdir map filter fst]. unfold stays at 1. cbn [fst].
  destruct (removable env n); cbn [negb List.length];
    fold (Dir.listdir d); lia.
Qed.

End CleanupLoop.

Lemma no_log_in_removes (names : list string) :
  existsb is_log_record (map Remove names) = false.
Proof. induction names as [|n names IH]; [reflexivity|exact IH]. Qed.

(** C9 (amended).  When the Auth Guard passes, Cleanup lists the output
    directory once and calls [os.remove] on every listed entry, in listing
    order; a removal that raises is swallowed silently (the handler hands
    no record to any logger and the request still succeeds); the entries
    that remain are those whose removal raised; and [removed] is the
    number of entries deleted. *)
Theorem C9_cleanup (env : Env) (key : option string) (st : State) :
  guard_passes env key ->
  let names := Dir.listdir (outputs st) in
  let removed := Z.of_nat (List.length (filter (removable env) names)) in
  let st' := snd (cleanup env key st) in
  cleanup env key st
  = (Ok (JObj [("success", JBool true); ("removed", JInt removed)]),
     mkState (filter (stays env) (outputs st)) (draws st)
             (trace st ++ Listdir :: map Remove names)) /\
  removed = Z.of_nat (List.length (outputs st))
            - Z.of_nat (List.length (outputs st')) /\
  existsb is_log_record (trace st') = existsb is_log_record (trace st).
Proof.
  intros G names removed st'.
  assert (E : cleanup env key st
              = (Ok (JObj [("success", JBool true); ("removed", JInt removed)]),
                 mkState (filter (stays env) (outputs st)) (draws st)
                         (trace st ++ Listdir :: map Remove names))).
  { unfold cleanup. unfold bind at 1. rewrite (check_secret_pass _ _ _ G).
    unfold bind at 1. cbn [emit]. unfold bind at 1. unfold get_outputs.
    cbn [outputs]. unfold bind at 1.
    rewrite (remove_all_run env (outputs st) [] 0); [| reflexivity | constructor].
    cbn [outputs draws trace app ret]. unfold ret.
    rewrite <- app_assoc. reflexivity. }
  split; [exact E|]. subst st'. rewrite E. cbn [snd outputs trace].
  split.
  - subst removed names.
    pose proof (filter_split_length env (outputs st)). lia.
  - rewrite existsb_app. cbn [existsb is_log_record orb].
    rewrite no_log_in_removes. now rewrite orb_false_r.
Qed.

Lemma C9_cleanup_witness :
  cleanup (Toy.env (Some "s3cret")) (Some "s3cret")
          (mkState [("a", []); ("lost+found", []); ("b", [])] 0 [])
  = (Ok (JObj [("success", JBool true); ("removed", JInt 2)]),
     mkState [("lost+found", [])] 0
             [Listdir; Remove "a"; Remove "lost+found"; Remove "b"]).
Proof.
  refine (proj1 (C9_cleanup (Toy.env (Some "s3cret")) (Some "s3cret")
                   (mkState [("a", []); ("lost+found", []); ("b", [])] 0 [])
                   _)).
  right. reflexivity.
Defined.

(** C9, as stated, fails: the removal of ["lost+found"] raises, the
    request succeeds and reports one removal, and the trace of the request
    holds no log record. *)
Lemma C9_counterexample :
  let st := mkState [("a", []); ("lost+found", [])] 0 [] in
  let run := cleanup (Toy.env None) None st in
  os_remove (Toy.env None) "lost+found" <> None /\
  fst run = Ok (JObj [("success", JBool true); ("removed", JInt 1)]) /\
  trace (snd run) = [Listdir; Remove "a"; Remove "lost+found"] /\
  ~ (exists msg, In (LogRecord msg) (trace (snd run))).
Proof.
  cbv zeta. repeat split; try reflexivity.
  - discriminate.
  - intros [msg H]. vm_compute in H. intuition discriminate.
Qed.

(** ** What a failed request leaves behind *)

Lemma bind_assoc {A B C : Type} (m : M A) (k : A -> M B) (h : B -> M C)
      (st : State) :
  bind (bind m k) h st = bind m (fun a => bind (k a) h) st.
Proof. unfold bind. destruct (m st) as [[a|e] s]; reflexivity. Qed.

Section Loops.

Variable env : Env.

Lemma render_pages_raises (pages : list (FitzPage env)) :
  forall i acc st e st',
    render_pages env i pages acc st = (Raise e, st') ->
    exists p, e = Uncaught p.
Proof.
  induction pages as [|p rest IH]; intros i acc st e st' H;
    cbn [render_pages] in H.
  - exec.
  - exec; eauto.
Qed.

Lemma split_pages_raises (pages : list (PdfPage env)) :
  forall i acc st e st',
    split_pages env i pages acc st = (Raise e, st') ->
    exists p, e = Uncaught p.
Proof.
  induction pages as [|p rest IH]; intros i acc st e st' H;
    cbn [split_pages] in H.
  - exec.
  - exec; eauto.
Qed.

Lemma render_pages_app (l1 l2 : list (FitzPage env)) :
  forall i acc st,
    render_pages env i (l1 ++ l2) acc st
    = (acc' <- render_pages env i l1 acc ;;
       render_pages env (i + List.length l1) l2 acc') st.
Proof.
  induction l1 as [|p l1 IH]; intros i acc st.
  - cbn. now rewrite Nat.add_0_r.
  - cbn [app render_pages List.length].
    rewrite !bind_assoc. apply bind_ext. intros pix s1.
    rewrite !bind_assoc. apply bind_ext. intros b s2.
    rewrite !bind_assoc. apply bind_ext. intros n s3.
    rewrite !bind_assoc. apply bind_ext. intros _ s4.
    rewrite IH. now rewrite Nat.add_succ_r.
Qed.

Lemma split_pages_app (l1 l2 : list (PdfPage env)) :
  forall i acc st,
    split_pages env i (l1 ++ l2) acc st
    = (acc' <- split_pages env i l1 acc ;;
       split_pages env (i + List.length l1) l2 acc') st.
Proof.
  induction l1 as [|p l1 IH]; intros i acc st.
  - cbn. now rewrite Nat.add_0_r.
  - cbn [app split_pages List.length].
    rewrite !bind_assoc. apply bind_ext. intros _ s1.
    rewrite !bind_assoc. apply bind_ext. intros n s3.
    rewrite !bind_assoc. apply bind_ext. intros _ s4.
    rewrite IH. now rewrite Nat.add_succ_r.
Qed.

(** A 4xx answer comes from a check that precedes every write. *)
Lemma client_error_writes_nothing (r : Request) (st st' : State)
      (c : Z) (d : string) :
  handle env r st = (Raise (HTTPException c d), st') ->
  c <> 500 -> outputs st' = outputs st.
Proof.
  intros H Hc. destruct r; cbn [handle] in H.
  - exec.
  - unfold scan_to_pdf, image_to_pdf in H.
    auth env x_api_key H; [|exec; reflexivity].
    exec; try congruence.
    all: match goal with
         | E : read_images _ _ _ _ = _ |- _ =>
             apply read_images_state in E; cbn in E; apply E
         end.
  - unfold scan_to_pdf, image_to_pdf in H.
    auth env x_api_key H; [|exec; reflexivity].
    exec; try congruence.
    all: match goal with
         | E : read_images _ _ _ _ = _ |- _ =>
             apply read_images_state in E; cbn in E; apply E
         end.
  - unfold image_to_image in H.
    auth env x_api_key H; [|exec; reflexivity].
    exec; reflexivity.
  - unfold image_compress in H.
    auth env x_api_key H; [|exec; reflexivity].
    exec; reflexivity.
  - unfold pdf_to_images in H.
    auth env x_api_key H; [|exec; reflexivity].
    exec; try reflexivity.
    all: match goal with
         | E : render_pages _ _ _ _ _ = _ |- _ =>
             apply render_pages_raises in E; destruct E; discriminate
         end.
  - unfold pdf_merge in H.
    auth env x_api_key H; [|exec; reflexivity].
    exec; try reflexivity; congruence.
  - unfold pdf_split in H.
    auth env x_api_key H; [|exec; reflexivity].
    exec; try reflexivity.
    all: match goal with
         | E : split_pages _ _ _ _ _ = _ |- _ =>
             apply split_pages_raises in E; destruct E; discriminate
         end.
  - unfold cleanup in H.
    auth env x_api_key H; [|exec; reflexivity].
    exec.
    all: match goal with
         | E : remove_all _ _ _ _ = _ |- _ =>
             rewrite (remove_all_run env (outputs st) [] 0) in E;
             [discriminate | reflexivity | constructor]
         end.
Qed.

End Loops.

(** ** References returned by the page loops *)

Lemma fresh_name_widen (env : Env) (lo hi lo' hi' : nat) (n : string) :
  (lo' <= lo)%nat -> (hi <= hi')%nat ->
  fresh_name env lo hi n -> fresh_name env lo' hi' n.
Proof.
  intros Hl Hh (p & e & k & Hk & Hp & He & ->).
  exists p, e, k. repeat split; auto; lia.
Qed.

Section PageLoops.

Variable env : Env.

Lemma render_pages_keeps (pages : list (FitzPage env)) :
  forall i acc st r st' n,
    render_pages env i pages acc st = (r, st') ->
    In n (Dir.listdir (outputs st)) -> In n (Dir.listdir (outputs st')).
Proof.
  induction pages as [|p rest IH]; intros i acc st r st' n H Hn;
    cbn [render_pages] in H.
  - exec. exact Hn.
  - exec; try exact Hn; try (apply listdir_put; now left).
    all: eapply IH; [exact H|]; cbn; apply listdir_put; now left.
Qed.

Lemma split_pages_keeps (pages : list (PdfPage env)) :
  forall i acc st r st' n,
    split_pages env i pages acc st = (r, st') ->
    In n (Dir.listdir (outputs st)) -> In n (Dir.listdir (outputs st')).
Proof.
  induction pages as [|p rest IH]; intros i acc st r st' n H Hn;
    cbn [split_pages] in H.
  - exec. exact Hn.
  - exec; try exact Hn; try (apply listdir_put; now left).
    all: eapply IH; [exact H|]; cbn; apply listdir_put; now left.
Qed.

Lemma render_pages_ok (pages : list (FitzPage env)) :
  forall i acc st urls st',
    render_pages env i pages acc st = (Ok urls, st') ->
    exists names,
      urls = acc ++ map url_of names /\
      List.length names = List.length pages /\
      Forall (listed env st st') names.
Proof.
  induction pages as [|p rest IH]; intros i acc st urls st' H;
    cbn [render_pages] in H.
  - exec. exists []. cbn. rewrite app_nil_r. auto.
  - exec.
    pose proof (render_pages_extends _ _ _ _ _ _ _ H) as [Hd _].
    pose proof (fun n => render_pages_keeps _ _ _ _ _ _ n H) as Hk.
    apply IH in H. destruct H as (names & -> & Hlen & Hall).
    cbn [outputs draws] in *.
    match goal with
    | |- context [url_of ?x] => exists (x :: names)
    end.
    split; [now rewrite <- app_assoc|]. split; [cbn [List.length]; now rewrite Hlen|].
    constructor.
    + split.
      * apply Hk. apply listdir_put. now right.
      * exists ("page_" ++ PyStr.of_nat (i + 1))%string, "png", (draws st).
        repeat split; try lia; [apply page_prefix | unfold known_ext; tauto].
    + eapply Forall_impl; [|exact Hall]. intros n [Hin Hf].
      split; [exact Hin|]. eapply fresh_name_widen; [| |exact Hf]; cbn [draws]; lia.
Qed.

Lemma split_pages_ok (pages : list (PdfPage env)) :
  forall i acc st urls st',
    split_pages env i pages acc st = (Ok urls, st') ->
    exists names,
      urls = acc ++ map url_of names /\
      List.length names = List.length pages /\
      Forall (listed env st st') names.
Proof.
  induction pages as [|p rest IH]; intros i acc st urls st' H;
    cbn [split_pages] in H.
  - exec. exists []. cbn. rewrite app_nil_r. auto.
  - exec.
    pose proof (split_pages_extends _ _ _ _ _ _ _ H) as [Hd _].
    pose proof (fun n => split_pages_keeps _ _ _ _ _ _ n H) as Hk.
    apply IH in H. destruct H as (names & -> & Hlen & Hall).
    cbn [outputs draws] in *.
    match goal with
    | |- context [url_of ?x] => exists (x :: names)
    end.
    split; [now rewrite <- app_assoc|]. split; [cbn [List.length]; now rewrite Hlen|].
    constructor.
    + split.
      * apply Hk. apply listdir_put. now right.
      * exists ("split_" ++ PyStr.of_nat (i + 1))%string, "pdf", (draws st).
        repeat split; try lia; [apply split_prefix | unfold known_ext; tauto].
    + eapply Forall_impl; [|exact Hall]. intros n [Hin Hf].
      split; [exact Hin|]. eapply fresh_name_widen; [| |exact Hf]; cbn [draws]; lia.
Qed.

End PageLoops.

(** C10.  A success response of PDF->Images or PDF Split holds a list
    [files] and a [pageCount] equal to the length of that list; every
    element of [files] is ['/outputs/'] followed by a generated artifact
    name, and that name is an entry of the output directory. *)
Theorem C10_page_references (env : Env) (key : option string)
        (file : UploadFile) (st st' : State) (j : json) :
  pdf_to_images env key file st = (Ok j, st') \/
  pdf_split env key file st = (Ok j, st') ->
  exists names files : list string,
    files = map (fun n => ("/outputs/" ++ n)%string) names /\
    j = JObj [("success", JBool true);
              ("files", JList (map JStr files));
              ("pageCount", JInt (Z.of_nat (List.length files)))] /\
    Forall (listed env st st') names.
Proof.
  intros [H|H].
  - unfold pdf_to_images in H. auth env key H; [|exec].
    exec.
    match goal with
    | E : render_pages _ _ _ _ _ = _ |- _ =>
        apply render_pages_ok in E; destruct E as (names & -> & _ & Hall)
    end.
    exists names, (map url_of names). repeat split; auto.
  - unfold pdf_split in H. auth env key H; [|exec].
    exec.
    match goal with
    | E : split_pages _ _ _ _ _ = _ |- _ =>
        apply split_pages_ok in E; destruct E as (names & -> & _ & Hall)
    end.
    exists names, (map url_of names). repeat split; auto.
Qed.

Lemma C10_page_references_witness :
  exists names files : list string,
    files = map (fun n => ("/outputs/" ++ n)%string) names /\
    JObj [("success", JBool true);
          ("files", JList [JStr "/outputs/split_1_00000000000040008000000000000000.pdf";
                           JStr "/outputs/split_2_00000000000040008000000000000001.pdf"]);
          ("pageCount", JInt 2)]
    = JObj [("success", JBool true);
            ("files", JList (map JStr files));
            ("pageCount", JInt (Z.of_nat (List.length files)))] /\
    Forall (listed (Toy.env None) Toy.st0
              (snd (pdf_split (Toy.env None) None (Toy.upload "a.pdf" Toy.pdf2)
                              Toy.st0)))
           names.
Proof.
  apply (C10_page_references (Toy.env None) None (Toy.upload "a.pdf" Toy.pdf2)
                             Toy.st0).
  right. reflexivity.
Defined.

(** ** The handlers, past their first steps *)

Ltac norm_m :=
  repeat (progress
            (unfold bind, read, emit, ret, raise, try_except, call, call_, lift,
               except_Exception, except_UnidentifiedImageError,
               get_outputs, set_outputs, store, open_rgb,
               _unique_filename, uuid4_hex;
             cbn beta iota delta [outputs draws trace])).

Section Prefixes.

Variable env : Env.

Lemma pdf_to_images_opened (key : option string) (file : UploadFile)
      (st : State) (doc : FitzDoc env) (pages : list (FitzPage env)) :
  guard_passes env key ->
  fitz_open env (content file) = inr doc ->
  doc_pages env doc = inr pages ->
  pdf_to_images env key file st
  = (out_files <- render_pages env 0 pages [] ;;
     ret (files_response out_files))
      (mkState (outputs st) (draws st)
               (trace st ++ [UploadRead (content file);
                             FitzOpen (content file)])).
Proof.
  intros G Hopen Hpages. unfold pdf_to_images. unfold bind at 1.
  rewrite (check_secret_pass _ _ _ G). norm_m. rewrite Hopen. norm_m.
  rewrite Hpages. norm_m. rewrite <- app_assoc. reflexivity.
Qed.

Lemma pdf_split_opened (key : option string) (file : UploadFile)
      (st : State) (reader : Reader env) (pages : list (PdfPage env)) :
  guard_passes env key ->
  PdfReader env (content file) = inr reader ->
  reader_pages env reader = inr pages ->
  pdf_split env key file st
  = (out_files <- split_pages env 0 pages [] ;;
     ret (files_response out_files))
      (mkState (outputs st) (draws st)
               (trace st ++ [UploadRead (content file);
                             ReaderOpen (content file); ReaderPages])).
Proof.
  intros G Hopen Hpages. unfold pdf_split. unfold bind at 1.
  rewrite (check_secret_pass _ _ _ G). norm_m. rewrite Hopen. norm_m. rewrite Hpages. norm_m.
  rewrite <- !app_assoc. reflexivity.
Qed.

End Prefixes.

(** C4, as stated, fails: the second page of this two-page document
    cannot be rasterized, the request fails, and the PNG of the first page
    is in the output directory, which was empty before. *)
Lemma C4_counterexample :
  let run := pdf_to_images (Toy.env None) None
                           (Toy.upload "a.pdf" Toy.pdf_bad2) Toy.st0 in
  fst run = Raise (Uncaught (OtherException "bad page")) /\
  outputs Toy.st0 = [] /\
  outputs (snd run)
  = [("page_1_00000000000040008000000000000000.png", [Byte.x01; Byte.x01])].
Proof. cbv zeta. repeat split; reflexivity. Qed.

(** ** Buffers that are not PDF documents *)

Section NotPdf.

Variable env : Env.

Lemma append_all_rejects (f : UploadFile) (files : list UploadFile) :
  In f files ->
  (forall appended, PdfMerger_append env appended (content f) <> None) ->
  forall acc st,
  exists p st',
    append_all env files acc st = (Raise (Uncaught p), st') /\
    outputs st' = outputs st /\ draws st' = draws st.
Proof.
  intros Hin Hrej. induction files as [|a rest IH]; [contradiction|].
  intros acc st. cbn [append_all]. norm_m.
  destruct (PdfMerger_append env acc (content a)) as [e|] eqn:Ea.
  - exists e. eexists. repeat split.
  - destruct Hin as [->|Hin]; [now apply Hrej in Ea|].
    destruct (IH Hin (acc ++ [content a])
                 (mkState (outputs st) (draws st)
                          ((trace st ++ [UploadRead (content a)])
                             ++ [MergerAppend (content a)])))
      as (p & st' & E & Ho & Hd).
    exists p, st'. repeat split; assumption.
Qed.

End NotPdf.

(** C3 (amended).  PDF->Images and PDF Split open the buffer as a PDF
    first; when that fails the request fails with
    [HTTPException(400, 'Invalid PDF file')] and nothing else was called:
    no page was converted, no name was drawn, nothing was written.  PDF
    Merge has no validation step of its own: a buffer that [merger.append]
    rejects aborts the request with a 500 ['Merge error: ...'], with
    nothing written. *)
Theorem C3_invalid_pdf (env : Env) (key : option string) (st : State) :
  guard_passes env key ->
  (forall (file : UploadFile) (e : pyerr),
      fitz_open env (content file) = inl e ->
      pdf_to_images env key file st
      = (Raise (HTTPException 400 "Invalid PDF file"),
         mkState (outputs st) (draws st)
                 (trace st ++ [UploadRead (content file);
                               FitzOpen (content file)]))) /\
  (forall (file : UploadFile) (e : pyerr),
      PdfReader env (content file) = inl e ->
      pdf_split env key file st
      = (Raise (HTTPException 400 "Invalid PDF file"),
         mkState (outputs st) (draws st)
                 (trace st ++ [UploadRead (content file);
                               ReaderOpen (content file)]))) /\
  (forall (files : list UploadFile) (f : UploadFile),
      (2 <= List.length files)%nat ->
      In f files ->
      (forall appended, PdfMerger_append env appended (content f) <> None) ->
      exists (msg : string) (st' : State),
        pdf_merge env key files st
        = (Raise (HTTPException 500 ("Merge error: " ++ msg)), st') /\
        outputs st' = outputs st /\ draws st' = draws st).
Proof.
  intros G. split; [|split].
  - intros file e Hopen. unfold pdf_to_images. unfold bind at 1.
    rewrite (check_secret_pass _ _ _ G). norm_m. rewrite Hopen. norm_m.
    rewrite <- app_assoc. reflexivity.
  - intros file e Hopen. unfold pdf_split. unfold bind at 1.
    rewrite (check_secret_pass _ _ _ G). norm_m. rewrite Hopen. norm_m.
    rewrite <- app_assoc. reflexivity.
  - intros files f Hlen Hin Hrej. unfold pdf_merge. unfold bind at 1.
    rewrite (check_secret_pass _ _ _ G).
    destruct files as [|a rest]; [cbn in Hlen; lia|].
    remember (a :: rest) as files eqn:Hfiles.
    replace (match files with [] => true | _ :: _ => false end) with false
      by (subst; reflexivity).
    destruct (Nat.ltb_spec (List.length files) 2) as [L|_]; [lia|].
    cbn [orb].
    destruct (append_all_rejects env f files Hin Hrej [] st)
      as (p & st' & E & Ho & Hd).
    unfold bind at 1, try_except. unfold bind at 1. rewrite E.
    cbn [except_Exception]. unfold raise.
    exists (exn_str (Uncaught p)), st'. repeat split; assumption.
Qed.

Lemma C3_invalid_pdf_witness :
  pdf_split (Toy.env None) None (Toy.upload "notes.txt" Toy.png) Toy.st0
  = (Raise (HTTPException 400 "Invalid PDF file"),
     mkState [] 0 [UploadRead Toy.png; ReaderOpen Toy.png]).
Proof.
  refine (proj1 (proj2 (C3_invalid_pdf (Toy.env None) None Toy.st0 _))
            (Toy.upload "notes.txt" Toy.png)
            (OtherException "Failed to open stream") _).
  - left. reflexivity.
  - reflexivity.
Defined.

(** C3, as stated, fails for PDF Merge: the first upload is not a PDF
    ([merger.append] rejects it), and the request fails with status 500,
    not 400. *)
Lemma C3_counterexample :
  let files := [Toy.upload "a.png" Toy.png; Toy.upload "b.pdf" Toy.pdf2] in
  let run := pdf_merge (Toy.env None) None files Toy.st0 in
  PdfMerger_append (Toy.env None) [] Toy.png <> None /\
  fst run = Raise (HTTPException 500 "Merge error: EOF marker not found") /\
  http_status (fst run) <> 400.
Proof. cbv zeta. repeat split; vm_compute; discriminate. Qed.

(** ** Image Compress *)




(** ** Image to image *)

Section ImageToImage.

Variable env : Env.
Variable key : option string.
Variable file : UploadFile.
Variable st : State.
Variables img0 img : PILImage env.

Hypothesis G : guard_passes env key.
Hypothesis Hopen : Image_open env (content file) = inr img0.
Hypothesis Hconv : Image_convert env img0 "RGB" = inr img.

Lemma image_to_image_rejects (tf : PyStr.text) :
  ~ valid_target (target_of env tf) ->
  image_to_image env key file tf st
  = (Raise (HTTPException 400
              "Unsupported target_format. Use png, jpeg, webp"),
     mkState (outputs st) (draws st)
             (trace st ++ [UploadRead (content file);
                           ImageOpen (content file); ImageConvert "RGB"])).
Proof.
  intros Hbad. unfold image_to_image. unfold bind at 1.
  rewrite (check_secret_pass _ _ _ G). norm_m. rewrite Hopen. norm_m.
  rewrite Hconv. norm_m.
  destruct (PyStr.tmem _ _) eqn:Hm; [apply tmem_targets in Hm; tauto|].
  cbn [negb]. rewrite <- !app_assoc. reflexivity.
Qed.

Lemma image_to_image_saves (tf : PyStr.text) :
  valid_target (target_of env tf) ->
  let target := target_of env tf in
  let n := name_of "converted_img"
                   (Uuid.hex (Uuid.uuid4_int (urandom16 env (draws st))))
                   (extension_of target) in
  image_to_image env key file tf st
  = (store (ImageSave n (encoding_of target) None false) n
           (Image_save env img n (encoding_of target) None false) ;;
     ret (file_response n []))
      (mkState (outputs st) (S (draws st))
               (trace st ++ [UploadRead (content file);
                             ImageOpen (content file); ImageConvert "RGB"])).
Proof.
  intros Hok target n. unfold image_to_image. unfold bind at 1.
  rewrite (check_secret_pass _ _ _ G). norm_m. rewrite Hopen. norm_m.
  rewrite Hconv. norm_m. subst n target.
  destruct Hok as [E|[E|[E|E]]]; rewrite !E;
    simpl (negb (PyStr.tmem _ _)); norm_m; rewrite <- !app_assoc;
    reflexivity.
Qed.

End ImageToImage.

(** ** PDF to images *)

Lemma page_names_length (env : Env) (prefix ext : string) (n : nat) :
  forall i d, List.length (page_names env prefix ext i d n) = n.
Proof. induction n as [|m IH]; intros i d; cbn; [reflexivity|now rewrite IH]. Qed.

Lemma page_names_nth (env : Env) (prefix ext : string) (n : nat) :
  forall i d k,
    (k < n)%nat ->
    nth_error (page_names env prefix ext i d n) k
    = Some (name_of (prefix ++ PyStr.of_nat (i + k + 1))
                    (Uuid.hex (Uuid.uuid4_int (urandom16 env (d + k)))) ext).
Proof.
  induction n as [|m IH]; intros i d k Hk; [lia|].
  destruct k as [|k]; cbn [page_names nth_error].
  - now rewrite !Nat.add_0_r.
  - rewrite IH by lia.
    replace (S i + k)%nat with (i + S k)%nat by lia.
    replace (S d + k)%nat with (d + S k)%nat by lia. reflexivity.
Qed.

Lemma render_pages_all (env : Env) (pages : list (FitzPage env))
      (datas : list bytes) :
  Forall2 (rasterized env) pages datas ->
  (forall n b, file_write env n b = None) ->
  forall i acc st,
    let names := page_names env "page_" "png" i (draws st)
                            (List.length pages) in
    let run := render_pages env i pages acc st in
    fst run = Ok (acc ++ map url_of names) /\
    outputs (snd run) = put_all (outputs st) (combine names datas) /\
    draws (snd run) = (draws st + List.length pages)%nat.
Proof.
  intros Hall Hdisk. induction Hall as [|p b pages datas (pix & Hp & Hb) _ IH];
    intros i acc st.
  - cbn. rewrite app_nil_r. auto.
  - cbn zeta. cbn [render_pages List.length page_names]. norm_m.
    rewrite Hp. norm_m. rewrite Hb. norm_m. rewrite Hdisk. norm_m.
    match goal with
    | |- context [render_pages env (S i) pages ?a ?s] =>
        destruct (IH (S i) a s) as (E1 & E2 & E3)
    end.
    cbn [draws outputs] in E1, E2, E3.
    rewrite E1, E2, E3. cbn [map combine put_all fold_left fst snd].
    rewrite <- app_assoc. repeat split; try reflexivity. lia.
Qed.

(** ** Sanity checks on concrete inputs *)

Example strip_lower_mixed :
  PyStr.strip (PyStr.lower "  WebP ") = "webp".
Proof. reflexivity. Qed.

Example strip_keeps_inner_space :
  PyStr.strip (PyStr.lower " J PG") = "j pg".
Proof. reflexivity. Qed.

Example uuid4_of_zero :
  Uuid.hex (Uuid.uuid4_int 0) = "00000000000040008000000000000000".
Proof. reflexivity. Qed.

Example uuid4_of_all_ones :
  Uuid.hex (Uuid.uuid4_int (2 ^ 128 - 1)) = "ffffffffffff4fffbfffffffffffffff".
Proof. reflexivity. Qed.

Example empty_secret_disables_auth :
  _check_secret (Toy.env (Some EmptyString)) (Some "anything") Toy.st0
  = (Ok tt, Toy.st0).
Proof. reflexivity. Qed.

Example zero_page_pdf :
  pdf_to_images (Toy.env None) None (Toy.upload "empty.pdf" Toy.pdf0) Toy.st0
  = (Ok (JObj [("success", JBool true); ("files", JList []);
               ("pageCount", JInt 0)]),
     mkState [] 0 [UploadRead Toy.pdf0; FitzOpen Toy.pdf0]).
Proof. reflexivity. Qed.

Example merge_needs_two_files :
  fst (pdf_merge (Toy.env None) None [Toy.upload "a.pdf" Toy.pdf2] Toy.st0)
  = Raise (HTTPException 400 "Upload two or more PDF files to merge").
Proof. reflexivity. Qed.

Example truncated_image_is_a_server_error :
  http_status
    (fst (image_compress (Toy.env None) None
                         (Toy.upload "cut.jpg" [Byte.x00; Byte.x01]) 75
                         Toy.st0))
  = 500.
Proof. reflexivity. Qed.

(* ================================================================= *)
(** * Further properties of main.py *)

(** ** Status codes *)

Lemma read_images_raises (env : Env) (files : list UploadFile) :
  forall acc st e st',
    read_images env files acc st = (Raise e, st') ->
    exists d, e = HTTPException 400 d.
Proof.
  induction files as [|f rest IH]; intros acc st e st' H;
    cbn [read_images] in H.
  - exec.
  - exec; eauto.
Qed.

Lemma remove_all_returns (env : Env) (names : list string) :
  forall c st, exists n st', remove_all env names c st = (Ok n, st').
Proof.
  induction names as [|fn rest IH]; intros c st; cbn [remove_all].
  - eexists. eexists. reflexivity.
  - unfold bind at 1. rewrite remove_step.
    destruct (removable env fn); apply IH.
Qed.

(** What a handler raises once the Auth Guard has passed: a 400, a 500,
    or a library exception nobody caught. *)
Lemma raised_after_guard (env : Env) (r : Request) (st st' : State)
      (c : Z) (d : string) :
  (forall key, api_key_of r = Some key -> guard_passes env key) ->
  handle env r st = (Raise (HTTPException c d), st') ->
  c = 400 \/ c = 500.
Proof.
  intros HG H. destruct r; cbn [handle] in H;
    try (specialize (HG _ eq_refl)).
  - exec.
  - unfold scan_to_pdf, image_to_pdf in H. unfold bind at 1 in H.
    rewrite (check_secret_pass _ _ _ HG) in H. exec; auto.
    match goal with
    | E : read_images _ _ _ _ = _ |- _ =>
        apply read_images_raises in E; destruct E as [d' E]; injection E; auto
    end.
  - unfold scan_to_pdf, image_to_pdf in H. unfold bind at 1 in H.
    rewrite (check_secret_pass _ _ _ HG) in H. exec; auto.
    match goal with
    | E : read_images _ _ _ _ = _ |- _ =>
        apply read_images_raises in E; destruct E as [d' E]; injection E; auto
    end.
  - unfold image_to_image in H. unfold bind at 1 in H.
    rewrite (check_secret_pass _ _ _ HG) in H. exec; auto.
  - unfold image_compress in H. unfold bind at 1 in H.
    rewrite (check_secret_pass _ _ _ HG) in H. exec; auto.
  - unfold pdf_to_images in H. unfold bind at 1 in H.
    rewrite (check_secret_pass _ _ _ HG) in H. exec; auto.
    match goal with
    | E : render_pages _ _ _ _ _ = _ |- _ =>
        apply render_pages_raises in E; destruct E; discriminate
    end.
  - unfold pdf_merge in H. unfold bind at 1 in H.
    rewrite (check_secret_pass _ _ _ HG) in H. exec; auto.
  - unfold pdf_split in H. unfold bind at 1 in H.
    rewrite (check_secret_pass _ _ _ HG) in H. exec; auto.
    match goal with
    | E : split_pages _ _ _ _ _ = _ |- _ =>
        apply split_pages_raises in E; destruct E; discriminate
    end.
  - unfold cleanup in H. unfold bind at 1 in H.
    rewrite (check_secret_pass _ _ _ HG) in H. exec.
    match goal with
    | E : remove_all _ ?n ?c ?s = _ |- _ =>
        destruct (remove_all_returns env n c s) as (k & s' & E');
        rewrite E' in E; discriminate
    end.
Qed.

(** ** Image to PDF *)

(** X2.  The upload-count checks come right after the Auth Guard and
    before any upload is read: [image_to_pdf] (and its alias) with no
    file, and [pdf_merge] with fewer than two files, fail with a 400 in
    the initial state. *)
Theorem X2_upload_counts (env : Env) (key : option string)
        (files : list UploadFile) (st : State) :
  guard_passes env key ->
  (files = [] ->
   image_to_pdf env key files st
   = (Raise (HTTPException 400
               ("No files uploaded. Use field name " ++ dquote ++ "file"
                ++ dquote ++ ".")), st) /\
   scan_to_pdf env key files st = image_to_pdf env key files st) /\
  ((List.length files < 2)%nat ->
   pdf_merge env key files st
   = (Raise (HTTPException 400 "Upload two or more PDF files to merge"),
      st)).
Proof.
  intros G. split.
  - intros ->. split; [|reflexivity].
    unfold image_to_pdf. unfold bind at 1.
    rewrite (check_secret_pass _ _ _ G). reflexivity.
  - intros Hlen. unfold pdf_merge. unfold bind at 1.
    rewrite (check_secret_pass _ _ _ G).
    destruct (Nat.ltb_spec (List.length files) 2) as [_|L]; [|lia].
    rewrite orb_true_r. reflexivity.
Qed.

Lemma X2_upload_counts_witness :
  pdf_merge (Toy.env None) None [Toy.upload "only.pdf" Toy.pdf2] Toy.st0
  = (Raise (HTTPException 400 "Upload two or more PDF files to merge"),
     Toy.st0).
Proof.
  refine (proj2 (X2_upload_counts (Toy.env None) None
                   [Toy.upload "only.pdf" Toy.pdf2] Toy.st0 _) _).
  - left. reflexivity.
  - cbn. lia.
Defined.

Section ImageToPdf.

Variable env : Env.

Lemma read_images_cons_ok (f : UploadFile) (rest : list UploadFile)
      (acc : list bytes) (st : State) :
  verifiesb env f = true ->
  read_images env (f :: rest) acc st
  = read_images env rest (acc ++ [content f])
      (mkState (outputs st) (draws st) (trace st ++ verify_events f)).
Proof.
  unfold verifiesb, verify_events. intros H. cbn [read_images]. norm_m.
  destruct (Image_open env (content f)) as [e|img]; [discriminate|]. norm_m.
  destruct (Image_verify env img) as [e|]; [discriminate|]. norm_m.
  rewrite <- !app_assoc. reflexivity.
Qed.

Lemma read_images_cons_bad (f : UploadFile) (rest : list UploadFile)
      (acc : list bytes) (st : State) :
  verifiesb env f = false ->
  read_images env (f :: rest) acc st
  = (Raise (HTTPException 400
              ("Uploaded file " ++ PyStr.fmt_opt (filename f)
               ++ " is not a valid image.")),
     mkState (outputs st) (draws st)
             (trace st ++ failed_verify_events env f)).
Proof.
  unfold verifiesb, failed_verify_events, verify_events. intros H.
  cbn [read_images]. norm_m.
  destruct (Image_open env (content f)) as [e|img]; norm_m.
  - rewrite <- !app_assoc. reflexivity.
  - destruct (Image_verify env img) as [e|]; [|discriminate]. norm_m.
    rewrite <- !app_assoc. reflexivity.
Qed.

Lemma read_images_ok (files : list UploadFile) : forall acc st,
  Forall (fun f => verifiesb env f = true) files ->
  read_images env files acc st
  = (Ok (acc ++ map content files),
     mkState (outputs st) (draws st)
             (trace st ++ flat_map verify_events files)).
Proof.
  induction files as [|f rest IH]; intros acc st Hall.
  - cbn. unfold ret. rewrite !app_nil_r. now destruct st.
  - inversion Hall as [|? ? Hf Hrest]; subst.
    rewrite (read_images_cons_ok f rest acc st Hf).
    rewrite IH by exact Hrest. cbn [outputs draws trace map flat_map].
    rewrite <- !app_assoc. reflexivity.
Qed.

Lemma read_images_stops (good rest : list UploadFile) (bad : UploadFile) :
  forall acc st,
    Forall (fun f => verifiesb env f = true) good ->
    verifiesb env bad = false ->
    read_images env (good ++ bad :: rest) acc st
    = (Raise (HTTPException 400
                ("Uploaded file " ++ PyStr.fmt_opt (filename bad)
                 ++ " is not a valid image.")),
       mkState (outputs st) (draws st)
               (trace st ++ flat_map verify_events good
                         ++ failed_verify_events env bad)).
Proof.
  induction good as [|f good IH]; intros acc st Hall Hbad.
  - change ([] ++ bad :: rest) with (bad :: rest).
    now rewrite (read_images_cons_bad bad rest acc st Hbad).
  - inversion Hall as [|? ? Hf Hgood]; subst.
    change ((f :: good) ++ bad :: rest) with (f :: (good ++ bad :: rest)).
    rewrite (read_images_cons_ok f _ acc st Hf).
    rewrite IH by assumption. cbn [outputs draws trace flat_map].
    rewrite <- !app_assoc. reflexivity.
Qed.

End ImageToPdf.

(** X3.  [image_to_pdf] stops at the first upload that Pillow cannot
    open or verify, whatever the exception: the request fails with a 400
    that names that upload (['None'] when it has no name), the uploads
    after it are never read, no name is drawn and nothing is written. *)
Theorem X3_first_invalid_image (env : Env) (key : option string)
        (good rest : list UploadFile) (bad : UploadFile) (st : State) :
  guard_passes env key ->
  Forall (fun f => verifiesb env f = true) good ->
  verifiesb env bad = false ->
  image_to_pdf env key (good ++ bad :: rest) st
  = (Raise (HTTPException 400
              ("Uploaded file " ++ PyStr.fmt_opt (filename bad)
               ++ " is not a valid image.")),
     mkState (outputs st) (draws st)
             (trace st ++ flat_map verify_events good
                       ++ failed_verify_events env bad)).
Proof.
  intros G Hgood Hbad. unfold image_to_pdf. unfold bind at 1.
  rewrite (check_secret_pass _ _ _ G).
  destruct (good ++ bad :: rest) as [|f l] eqn:E;
    [destruct good; discriminate|].
  cbn [orb List.length Nat.eqb]. rewrite <- E. unfold bind at 1.
  rewrite (read_images_stops env good rest bad [] st Hgood Hbad).
  reflexivity.
Qed.

Lemma X3_first_invalid_image_witness :
  image_to_pdf (Toy.env None) None
               [Toy.upload "a.png" Toy.png; mkUpload None Toy.text;
                Toy.upload "c.png" Toy.png] Toy.st0
  = (Raise (HTTPException 400 "Uploaded file None is not a valid image."),
     mkState [] 0 [UploadRead Toy.png; ImageOpen Toy.png; ImageVerify;
                   UploadRead Toy.text; ImageOpen Toy.text]).
Proof.
  refine (X3_first_invalid_image (Toy.env None) None
            [Toy.upload "a.png" Toy.png] [Toy.upload "c.png" Toy.png]
            (mkUpload None Toy.text) Toy.st0 _ _ _).
  - left. reflexivity.
  - repeat constructor.
  - reflexivity.
Defined.

(** X4.  When every upload verifies, [image_to_pdf] hands the buffers to
    [img2pdf.convert] in upload order, in one call.  If the call returns
    and the disk takes the write, the response names
    [converted_<hex>.pdf], which holds the bytes returned; if the call
    raises, the request fails with a 500 that carries the message, with
    no name drawn and nothing written. *)
Theorem X4_image_to_pdf_converts (env : Env) (key : option string)
        (files : list UploadFile) (st : State) :
  guard_passes env key ->
  files <> [] ->
  Forall (fun f => verifiesb env f = true) files ->
  let images := map content files in
  let name :=
    name_of "converted"
            (Uuid.hex (Uuid.uuid4_int (urandom16 env (draws st)))) "pdf" in
  let verified := trace st ++ flat_map verify_events files in
  (forall pdf_bytes,
      img2pdf_convert env images = inr pdf_bytes ->
      file_write env name pdf_bytes = None ->
      image_to_pdf env key files st
      = (Ok (JObj [("success", JBool true);
                   ("fileUrl", JStr ("/outputs/" ++ name));
                   ("filename", JStr name)]),
         mkState (Dir.put (outputs st) name pdf_bytes) (S (draws st))
                 (verified ++ [Img2Pdf images; FileWrite name pdf_bytes]))) /\
  (forall e,
      img2pdf_convert env images = inl e ->
      image_to_pdf env key files st
      = (Raise (HTTPException 500
                  ("Failed to convert image to pdf: " ++ pyerr_msg e)),
         mkState (outputs st) (draws st) (verified ++ [Img2Pdf images]))).
Proof.
  intros G Hne Hall images name verified.
  assert (E : forall k : list bytes -> M json,
             (_check_secret env key ;;
              if match files with [] => true | _ => false end
                 || (List.length files =? 0)%nat
              then raise (HTTPException 400
                            ("No files uploaded. Use field name " ++ dquote
                             ++ "file" ++ dquote ++ "."))
              else images_bytes <- read_images env files [] ;; k images_bytes)
               st
             = k images (mkState (outputs st) (draws st) verified)).
  { intros k. unfold bind at 1. rewrite (check_secret_pass _ _ _ G).
    destruct files as [|f l]; [contradiction|].
    cbn [orb List.length Nat.eqb]. unfold bind at 1.
    rewrite (read_images_ok env (f :: l) [] st Hall). reflexivity. }
  split.
  - intros pdf_bytes Hconv Hwrite. unfold image_to_pdf. rewrite E.
    norm_m. rewrite Hconv. norm_m. fold name. rewrite Hwrite. norm_m.
    rewrite <- !app_assoc. reflexivity.
  - intros e Hconv. unfold image_to_pdf. rewrite E.
    norm_m. rewrite Hconv. norm_m. destruct e; reflexivity.
Qed.

Lemma X4_image_to_pdf_converts_witness :
  image_to_pdf (Toy.env None) None
               [Toy.upload "a.png" Toy.png; Toy.upload "b.png" [Byte.x42]]
               Toy.st0
  = (Ok (JObj [("success", JBool true);
               ("fileUrl",
                JStr "/outputs/converted_00000000000040008000000000000000.pdf");
               ("filename",
                JStr "converted_00000000000040008000000000000000.pdf")]),
     mkState [("converted_00000000000040008000000000000000.pdf",
               [Byte.x25; Byte.x89; Byte.x50; Byte.x42])] 1
             [UploadRead Toy.png; ImageOpen Toy.png; ImageVerify;
              UploadRead [Byte.x42]; ImageOpen [Byte.x42]; ImageVerify;
              Img2Pdf [Toy.png; [Byte.x42]];
              FileWrite "converted_00000000000040008000000000000000.pdf"
                        [Byte.x25; Byte.x89; Byte.x50; Byte.x42]]).
Proof.
  refine (proj1 (X4_image_to_pdf_converts (Toy.env None) None
                   [Toy.upload "a.png" Toy.png; Toy.upload "b.png" [Byte.x42]]
                   Toy.st0 _ _ _)
                [Byte.x25; Byte.x89; Byte.x50; Byte.x42] _ _).
  - left. reflexivity.
  - discriminate.
  - repeat constructor.
  - reflexivity.
  - reflexivity.
Defined.

(** ** Single images that do not decode *)

(** X5.  When [Image.open(...).convert('RGB')] raises, [image_to_image]
    and [image_compress] fail before they look at the target format or
    the quality, with nothing written and no name drawn; only
    [UnidentifiedImageError] is turned into a 400 ['Invalid image file'],
    any other exception (a truncated file, say) reaches the framework
    uncaught and is answered 500. *)
Theorem X5_decode_errors (env : Env) (key : option string)
        (file : UploadFile) (tf : PyStr.text) (q : Z) (st : State)
        (e : pyerr) :
  guard_passes env key ->
  decode env (content file) = inl e ->
  let st' := mkState (outputs st) (draws st)
                     (trace st ++ decode_events env (content file)) in
  image_to_image env key file tf st = (Raise (decode_failure e), st') /\
  image_compress env key file q st = (Raise (decode_failure e), st') /\
  http_status (@Raise json (decode_failure e))
  = match e with
    | UnidentifiedImageError _ => 400
    | OtherException _ => 500
    end.
Proof.
  intros G Hdec st'. subst st'. unfold decode, decode_events in *.
  repeat split.
  - unfold image_to_image. unfold bind at 1.
    rewrite (check_secret_pass _ _ _ G). norm_m.
    destruct (Image_open env (content file)) as [e0|img]; norm_m.
    + injection Hdec as ->. destruct e; norm_m;
        rewrite <- !app_assoc; reflexivity.
    + rewrite Hdec. norm_m. destruct e; norm_m;
        rewrite <- !app_assoc; reflexivity.
  - unfold image_compress. unfold bind at 1.
    rewrite (check_secret_pass _ _ _ G). norm_m.
    destruct (Image_open env (content file)) as [e0|img]; norm_m.
    + injection Hdec as ->. destruct e; norm_m;
        rewrite <- !app_assoc; reflexivity.
    + rewrite Hdec. norm_m. destruct e; norm_m;
        rewrite <- !app_assoc; reflexivity.
  - destruct e; reflexivity.
Qed.

Lemma X5_decode_errors_witness :
  image_to_image (Toy.env None) None
                 (Toy.upload "cut.jpg" [Byte.x00; Byte.x01])
                 (PyStr.of_string "bmp") Toy.st0
  = (Raise (Uncaught (OtherException "image file is truncated")),
     mkState [] 0 [UploadRead [Byte.x00; Byte.x01];
                   ImageOpen [Byte.x00; Byte.x01]; ImageConvert "RGB"]).
Proof.
  refine (proj1 (X5_decode_errors (Toy.env None) None
                   (Toy.upload "cut.jpg" [Byte.x00; Byte.x01])
                   (PyStr.of_string "bmp") 75
                   Toy.st0 (OtherException "image file is truncated") _ _)).
  - left. reflexivity.
  - reflexivity.
Defined.

(** ** PDF merge *)

Lemma append_all_ok (env : Env) (files : list UploadFile) : forall acc st,
  (forall appended f, In f files ->
                      PdfMerger_append env appended (content f) = None) ->
  append_all env files acc st
  = (Ok (acc ++ map content files),
     mkState (outputs st) (draws st)
             (trace st ++ flat_map append_events files)).
Proof.
  induction files as [|f rest IH]; intros acc st Hok.
  - cbn. unfold ret. rewrite !app_nil_r. now destruct st.
  - cbn [append_all]. norm_m. rewrite (Hok acc f) by (now left). norm_m.
    rewrite IH by (intros a g Hg; apply Hok; now right).
    cbn [outputs draws trace map flat_map append_events].
    rewrite <- !app_assoc. reflexivity.
Qed.

(** X6.  When the merger accepts every buffer, [pdf_merge] reads and
    appends the uploads one by one in upload order and then writes once:
    on success the response names [merged_<hex>.pdf], which holds what
    the merger wrote for the buffers in upload order; an exception
    raised by that write is answered 500 ['Merge error: ...'] like any
    other. *)
Theorem X6_pdf_merge_writes (env : Env) (key : option string)
        (files : list UploadFile) (st : State) :
  guard_passes env key ->
  (2 <= List.length files)%nat ->
  (forall appended f, In f files ->
                      PdfMerger_append env appended (content f) = None) ->
  let name :=
    name_of "merged"
            (Uuid.hex (Uuid.uuid4_int (urandom16 env (draws st)))) "pdf" in
  let tr := trace st ++ flat_map append_events files ++ [MergerWrite name] in
  (forall data,
      PdfMerger_write env (map content files) name = Stored data ->
      pdf_merge env key files st
      = (Ok (JObj [("success", JBool true);
                   ("fileUrl", JStr ("/outputs/" ++ name));
                   ("filename", JStr name)]),
         mkState (Dir.put (outputs st) name data) (S (draws st)) tr)) /\
  (forall e part,
      PdfMerger_write env (map content files) name = Failed e part ->
      fst (pdf_merge env key files st)
      = Raise (HTTPException 500 ("Merge error: " ++ pyerr_msg e))).
Proof.
  intros G Hlen Hok name tr.
  assert (E : forall k : exn -> option (M string),
             pdf_merge env key files st
             = (out_name <-
                  try_except
                    (out_name <- _unique_filename env "merged" "pdf" ;;
                     store (MergerWrite out_name) out_name
                           (PdfMerger_write env (map content files) out_name) ;;
                     ret out_name)
                    (except_Exception (fun e =>
                       raise (HTTPException 500
                                ("Merge error: " ++ exn_str e)))) ;;
                ret (file_response out_name []))
                 (mkState (outputs st) (draws st)
                          (trace st ++ flat_map append_events files))).
  { intros _. unfold pdf_merge. unfold bind at 1.
    rewrite (check_secret_pass _ _ _ G).
    destruct files as [|f l]; [cbn in Hlen; lia|].
    destruct (Nat.ltb_spec (List.length (f :: l)) 2) as [L|_]; [lia|].
    cbn [orb]. unfold bind at 1 5, try_except. unfold bind at 1 4.
    rewrite (append_all_ok env (f :: l) [] st Hok). reflexivity. }
  split.
  - intros data Hw. rewrite (E (fun _ => None)). norm_m. fold name.
    rewrite Hw. norm_m. subst tr. rewrite <- !app_assoc. reflexivity.
  - intros e part Hw. rewrite (E (fun _ => None)). norm_m. fold name.
    rewrite Hw. destruct part; norm_m; destruct e; reflexivity.
Qed.

Lemma X6_pdf_merge_writes_witness :
  pdf_merge (Toy.env None) None
            [Toy.upload "a.pdf" Toy.pdf2; Toy.upload "b.pdf" Toy.pdf0]
            Toy.st0
  = (Ok (JObj [("success", JBool true);
               ("fileUrl",
                JStr "/outputs/merged_00000000000040008000000000000000.pdf");
               ("filename",
                JStr "merged_00000000000040008000000000000000.pdf")]),
     mkState [("merged_00000000000040008000000000000000.pdf",
               [Byte.x25; Byte.x01; Byte.x02])] 1
             [UploadRead Toy.pdf2; MergerAppend Toy.pdf2;
              UploadRead Toy.pdf0; MergerAppend Toy.pdf0;
              MergerWrite "merged_00000000000040008000000000000000.pdf"]).
Proof.
  refine (proj1 (X6_pdf_merge_writes (Toy.env None) None
                   [Toy.upload "a.pdf" Toy.pdf2; Toy.upload "b.pdf" Toy.pdf0]
                   Toy.st0 _ _ _)
                [Byte.x25; Byte.x01; Byte.x02] _).
  - left. reflexivity.
  - cbn. lia.
  - intros appended f [<-|[<-|[]]]; reflexivity.
  - reflexivity.
Defined.

(** X7.  Past the Auth Guard and the upload count, [pdf_merge] answers
    200 or 500 ['Merge error: ...'] and nothing else: whatever is raised
    while the uploads are read, appended, named and written is caught by
    the one [except Exception] clause, so no library exception reaches
    the framework and no 400 is produced. *)
Theorem X7_pdf_merge_only_500 (env : Env) (key : option string)
        (files : list UploadFile) (st : State) :
  guard_passes env key ->
  (2 <= List.length files)%nat ->
  (exists j, fst (pdf_merge env key files st) = Ok j) \/
  (exists msg, fst (pdf_merge env key files st)
               = Raise (HTTPException 500 ("Merge error: " ++ msg))).
Proof.
  intros G Hlen.
  destruct (pdf_merge env key files st) as [res st'] eqn:H. cbn [fst].
  unfold pdf_merge in H. unfold bind at 1 in H.
  rewrite (check_secret_pass _ _ _ G) in H.
  destruct files as [|f l]; [cbn in Hlen; lia|].
  destruct (Nat.ltb_spec (List.length (f :: l)) 2) as [L|_]; [lia|].
  cbn [orb] in H. unfold bind at 1, try_except, except_Exception in H.
  match type of H with
  | context [match ?body st with _ => _ end] =>
      destruct (body st) as [[n|e] s]
  end.
  - left. injection H as <- _. eexists. reflexivity.
  - right. injection H as <- _. exists (exn_str e). reflexivity.
Qed.

Lemma X7_pdf_merge_only_500_witness :
  (exists j, fst (pdf_merge (Toy.env None) None
                    [Toy.upload "a.pdf" Toy.pdf2; Toy.upload "b" Toy.text]
                    Toy.st0) = Ok j) \/
  (exists msg, fst (pdf_merge (Toy.env None) None
                      [Toy.upload "a.pdf" Toy.pdf2; Toy.upload "b" Toy.text]
                      Toy.st0)
               = Raise (HTTPException 500 ("Merge error: " ++ msg))).
Proof.
  apply (X7_pdf_merge_only_500 (Toy.env None) None
           [Toy.upload "a.pdf" Toy.pdf2; Toy.upload "b" Toy.text] Toy.st0).
  - left. reflexivity.
  - cbn. lia.
Defined.

(** ** PDF split *)




(** X9.  In [pdf_split] only the construction of the reader is guarded:
    when the document opens but its page list cannot be read, the
    exception reaches the framework uncaught and is answered 500 (not the
    400 of an invalid PDF), with nothing written and no name drawn. *)
Theorem X9_split_pages_unreadable (env : Env) (key : option string)
        (file : UploadFile) (st : State) (reader : Reader env) (e : pyerr) :
  guard_passes env key ->
  PdfReader env (content file) = inr reader ->
  reader_pages env reader = inl e ->
  pdf_split env key file st
  = (Raise (Uncaught e),
     mkState (outputs st) (draws st)
             (trace st ++ [UploadRead (content file);
                           ReaderOpen (content file); ReaderPages])) /\
  http_status (fst (pdf_split env key file st)) = 500.
Proof.
  intros G Hopen Hpages.
  assert (E : pdf_split env key file st
              = (Raise (Uncaught e),
                 mkState (outputs st) (draws st)
                         (trace st ++ [UploadRead (content file);
                                       ReaderOpen (content file);
                                       ReaderPages]))).
  { unfold pdf_split. unfold bind at 1.
    rewrite (check_secret_pass _ _ _ G). norm_m. rewrite Hopen. norm_m.
    rewrite Hpages. norm_m. rewrite <- !app_assoc. reflexivity. }
  rewrite E. split; reflexivity.
Qed.

Lemma X9_split_pages_unreadable_witness :
  http_status
    (fst (pdf_split locked_env None (Toy.upload "locked.pdf" Toy.pdf2)
                    Toy.st0))
  = 500.
Proof.
  refine (proj2 (X9_split_pages_unreadable locked_env None
                   (Toy.upload "locked.pdf" Toy.pdf2) Toy.st0
                   [Byte.x01; Byte.x02]
                   (OtherException "File has not been decrypted")
                   _ _ _)).
  - left. reflexivity.
  - reflexivity.
  - reflexivity.
Defined.

(** ** Conversions never delete *)








Section NeverDeletes.

Variable env : Env.




End NeverDeletes.





(** ** Names and responses *)

Lemma append_cancel_l (p a b : string) : (p ++ a = p ++ b)%string -> a = b.
Proof.
  induction p as [|c p IH]; cbn; intros H; [exact H|].
  injection H as H. now apply IH.
Qed.

Lemma append_same_length (a b s t : string) :
  String.length a = String.length b -> (a ++ s = b ++ t)%string -> a = b.
Proof.
  revert b. induction a as [|c a IH]; intros [|d b] Hl H;
    try discriminate Hl; [reflexivity|].
  cbn in H. injection H as -> H. injection Hl as Hl.
  f_equal. now apply (IH b).
Qed.

(** X12.  [_unique_filename] is injective in the random value: two calls
    with the same prefix and extension return the same name only if the
    two [uuid4()] values drawn are equal, so distinct values give
    distinct artifact names. *)
Theorem X12_names_injective (env : Env) (prefix ext : string)
        (st1 st2 : State) :
  fst (_unique_filename env prefix ext st1)
  = fst (_unique_filename env prefix ext st2) ->
  Uuid.uuid4_int (urandom16 env (draws st1))
  = Uuid.uuid4_int (urandom16 env (draws st2)).
Proof.
  unfold _unique_filename, uuid4_hex, bind, ret. cbn [fst]. intros H.
  injection H as H. unfold name_of in H.
  apply append_cancel_l in H. apply append_cancel_l in H.
  apply append_same_length in H.
  - apply UuidFacts.hex_inj; [apply UuidFacts.uuid4_int_range ..|exact H].
  - unfold Uuid.hex. now rewrite !UuidFacts.hex_digits_length.
Qed.

Lemma X12_names_injective_witness :
  fst (_unique_filename (Toy.env None) "merged" "pdf" (mkState [] 3 []))
  <> fst (_unique_filename (Toy.env None) "merged" "pdf" (mkState [] 7 [])).
Proof.
  intros H.
  apply (X12_names_injective (Toy.env None) "merged" "pdf"
                             (mkState [] 3 []) (mkState [] 7 [])) in H.
  vm_compute in H. discriminate.
Defined.

Lemma listed_put (env : Env) (st : State) (p e : string) (data : bytes)
      (t : list Event) :
  semantic_prefix p -> known_ext e ->
  listed env st
    (mkState (Dir.put (outputs st)
                (name_of p (Uuid.hex (Uuid.uuid4_int (urandom16 env (draws st)))) e)
                data)
             (S (draws st)) t)
    (name_of p (Uuid.hex (Uuid.uuid4_int (urandom16 env (draws st)))) e).
Proof.
  intros Hp He. split; cbn [outputs draws].
  - apply listdir_put. now right.
  - exists p, e, (draws st). repeat split; auto.
Qed.

Lemma listed_eq_l (env : Env) (st s s' : State) (n : string) :
  outputs s = outputs st -> draws s = draws st ->
  listed env s s' n -> listed env st s' n.
Proof. unfold listed. intros _ ->. auto. Qed.

(** X13.  Whenever a route that produces one artifact succeeds
    (image-to-pdf, scan-to-pdf, image-to-image, image-compress,
    pdf-merge), the response starts with [success], [fileUrl] and
    [filename], [fileUrl] is ['/outputs/'] followed by [filename], that
    name was generated by the request and is an entry of the output
    directory, and the request made exactly one draw. *)
Theorem X13_single_artifact_response (env : Env) (r : Request)
        (st st' : State) (j : json) :
  single_artifact r = true ->
  handle env r st = (Ok j, st') ->
  exists (name : string) (more : list (string * json)),
    j = JObj ([("success", JBool true);
               ("fileUrl", JStr ("/outputs/" ++ name));
               ("filename", JStr name)] ++ more) /\
    listed env st st' name /\
    draws st' = S (draws st).
Proof.
  intros Hr H. destruct r; cbn [handle] in H; try discriminate Hr.
  - unfold scan_to_pdf, image_to_pdf in H. auth env x_api_key H; [|exec].
    exec.
    match goal with
    | E : read_images _ _ _ _ = _ |- _ =>
        apply read_images_state in E; cbn in E; destruct E as [E1 E2]
    end.
    eexists. exists []. split; [reflexivity|]. split; [|cbn; congruence].
    eapply listed_eq_l; [exact E1|exact E2|].
    apply listed_put; [unfold semantic_prefix|unfold known_ext]; tauto.
  - unfold scan_to_pdf, image_to_pdf in H. auth env x_api_key H; [|exec].
    exec.
    match goal with
    | E : read_images _ _ _ _ = _ |- _ =>
        apply read_images_state in E; cbn in E; destruct E as [E1 E2]
    end.
    eexists. exists []. split; [reflexivity|]. split; [|cbn; congruence].
    eapply listed_eq_l; [exact E1|exact E2|].
    apply listed_put; [unfold semantic_prefix|unfold known_ext]; tauto.
  - unfold image_to_image in H. auth env x_api_key H; [|exec].
    destruct (PyStr.tmem (target_of env target_format)
                [PyStr.of_string "png"; PyStr.of_string "jpeg";
                 PyStr.of_string "jpg"; PyStr.of_string "webp"]) eqn:Hm.
    + pose proof (target_ext _ Hm) as Hext. exec.
      all: eexists; exists []; (split; [reflexivity|]);
        (split; [|reflexivity]);
        apply listed_put; [unfold semantic_prefix; tauto|exact Hext].
    + exec.
  - unfold image_compress in H. auth env x_api_key H; [|exec].
    exec.
    eexists. eexists. split; [reflexivity|]. split; [|reflexivity].
    apply listed_put; [unfold semantic_prefix|unfold known_ext]; tauto.
  - unfold pdf_merge in H. auth env x_api_key H; [|exec].
    exec.
    match goal with
    | E : append_all _ _ _ _ = _ |- _ =>
        apply append_all_state in E; cbn in E; destruct E as [E1 E2]
    end.
    eexists. exists []. split; [reflexivity|]. split; [|cbn; congruence].
    eapply listed_eq_l; [exact E1|exact E2|].
    apply listed_put; [unfold semantic_prefix|unfold known_ext]; tauto.
Qed.

Lemma X13_single_artifact_response_witness :
  exists (name : string) (more : list (string * json)),
    JObj [("success", JBool true);
          ("fileUrl",
           JStr "/outputs/compressed_00000000000040008000000000000000.jpg");
          ("filename",
           JStr "compressed_00000000000040008000000000000000.jpg");
          ("quality", JInt 60)]
    = JObj ([("success", JBool true);
             ("fileUrl", JStr ("/outputs/" ++ name));
             ("filename", JStr name)] ++ more) /\
    listed (Toy.env None) Toy.st0
           (snd (handle (Toy.env None)
                        (ImageCompress None (Toy.upload "a.png" Toy.png) 60)
                        Toy.st0))
           name /\
    draws (snd (handle (Toy.env None)
                       (ImageCompress None (Toy.upload "a.png" Toy.png) 60)
                       Toy.st0))
    = 1%nat.
Proof.
  apply (X13_single_artifact_response (Toy.env None)
           (ImageCompress None (Toy.upload "a.png" Toy.png) 60) Toy.st0).
  - reflexivity.
  - reflexivity.
Defined.

(** X14.  The file names a client gives to its uploads reach nothing but
    the 400 message of [image_to_pdf]: on every other route the whole
    answer and the final state are the same under any file names, and on
    every route a success response is the same under any file names. *)
Theorem X14_file_names_only_in_one_message (env : Env) (r : Request)
        (st : State) :
  (quotes_file_name r = false ->
   handle env (anonymize r) st = handle env r st) /\
  (forall j, fst (handle env r st) = Ok j ->
             fst (handle env (anonymize r) st) = Ok j).
Proof.
  split.
  - intros Hq. destruct r; cbn [handle anonymize]; try reflexivity;
      try discriminate Hq.
    apply pdf_merge_anonymous.
  - intros j Hj. destruct r; cbn [handle anonymize] in *; try exact Hj.
    + now apply (image_to_pdf_anonymous env x_api_key files st).
    + now apply (image_to_pdf_anonymous env x_api_key files st).
    + now rewrite pdf_merge_anonymous.
Qed.

Lemma X14_file_names_only_in_one_message_witness :
  handle (Toy.env None)
         (PdfMerge None [mkUpload None Toy.pdf2; mkUpload None Toy.pdf0])
         Toy.st0
  = handle (Toy.env None)
           (PdfMerge None [Toy.upload "../../etc/passwd" Toy.pdf2;
                           Toy.upload "b.pdf" Toy.pdf0])
           Toy.st0.
Proof.
  apply (proj1 (X14_file_names_only_in_one_message (Toy.env None)
                  (PdfMerge None [Toy.upload "../../etc/passwd" Toy.pdf2;
                                  Toy.upload "b.pdf" Toy.pdf0])
                  Toy.st0)).
  reflexivity.
Defined.

(** ** The random bits of a name *)

(** A bit of a 16-bit mask that is set lies below position 16. *)
Lemma mask_bit (c m : Z) :
  0 <= c < 65536 ->
  Z.testbit c m = true ->
  0 <= m < 16.
Proof.
  intros Hc Hb. destruct (Z.lt_ge_cases m 0) as [L|L].
  - rewrite Z.testbit_neg_r in Hb by exact L. discriminate.
  - destruct (Z.lt_ge_cases m 16) as [L'|L']; [lia|].
    destruct (Z.eq_dec c 0) as [->|Hc0].
    + rewrite Z.bits_0 in Hb. discriminate.
    + rewrite Z.bits_above_log2 in Hb; [discriminate|lia|].
      apply Z.lt_le_trans with 16; [|exact L'].
      apply Z.log2_lt_pow2; [lia|]. change (2 ^ 16) with 65536. lia.
Qed.

Lemma small_bit_cases (m : Z) :
  0 <= m < 16 ->
  m = 0 \/ m = 1 \/ m = 2 \/ m = 3 \/ m = 4 \/ m = 5 \/ m = 6 \/
  m = 7 \/ m = 8 \/ m = 9 \/ m = 10 \/ m = 11 \/ m = 12 \/ m = 13 \/
  m = 14 \/ m = 15.
Proof. lia. Qed.

Ltac mask_cases H E :=
  repeat (destruct H as [H|H];
          [rewrite H in E; try (vm_compute in E; discriminate E); lia|]);
  rewrite H in E; try (vm_compute in E; discriminate E); lia.

(** Away from the forced positions, the masks of [uuid4] are clear. *)
Lemma masks_clear (n : Z) :
  0 <= n -> ~ In n forced_bits ->
  Z.testbit (Z.shiftl 49152 48) n = false /\
  Z.testbit (Z.shiftl 32768 48) n = false /\
  Z.testbit (Z.shiftl 61440 64) n = false /\
  Z.testbit (Z.shiftl 4 76) n = false.
Proof.
  intros Hn Hout. unfold forced_bits in Hout. cbn [In] in Hout.
  rewrite !Z.shiftl_spec by exact Hn.
  repeat split.
  - destruct (Z.testbit 49152 (n - 48)) eqn:E; [|reflexivity].
    pose proof (small_bit_cases _ (mask_bit 49152 (n - 48) ltac:(lia) E)) as C.
    exfalso. mask_cases C E.
  - destruct (Z.testbit 32768 (n - 48)) eqn:E; [|reflexivity].
    pose proof (small_bit_cases _ (mask_bit 32768 (n - 48) ltac:(lia) E)) as C.
    exfalso. mask_cases C E.
  - destruct (Z.testbit 61440 (n - 64)) eqn:E; [|reflexivity].
    pose proof (small_bit_cases _ (mask_bit 61440 (n - 64) ltac:(lia) E)) as C.
    exfalso. mask_cases C E.
  - destruct (Z.testbit 4 (n - 76)) eqn:E; [|reflexivity].
    pose proof (small_bit_cases _ (mask_bit 4 (n - 76) ltac:(lia) E)) as C.
    exfalso. mask_cases C E.
Qed.

(** [uuid4] keeps every bit of the sixteen random bytes but the six it
    forces. *)
Lemma uuid4_int_keeps (r n : Z) :
  0 <= n < 128 -> ~ In n forced_bits ->
  Z.testbit (Uuid.uuid4_int r) n = Z.testbit r n.
Proof.
  intros Hn Hout.
  destruct (masks_clear n (proj1 Hn) Hout) as (A & B & C & D).
  unfold Uuid.uuid4_int, Uuid.from_bytes, Uuid.two128.
  rewrite Z.lor_spec, Z.land_spec, Z.lor_spec, Z.land_spec.
  rewrite !Z.lnot_spec by lia.
  rewrite A, B, C, D.
  rewrite Z.mod_pow2_bits_low by lia.
  cbn [negb]. now rewrite !Bool.andb_true_r, !Bool.orb_false_r.
Qed.

(** The six forced bits: variant [10], version [0100]. *)
Lemma uuid4_int_forced (r : Z) :
  map (Z.testbit (Uuid.uuid4_int r)) forced_bits
  = [false; true; false; false; true; false].
Proof.
  unfold forced_bits, Uuid.uuid4_int. cbn [map].
  rewrite !Z.lor_spec, !Z.land_spec, !Z.lor_spec, !Z.land_spec.
  rewrite !Z.lnot_spec by lia.
  rewrite !Z.shiftl_spec by lia.
  cbn -[Uuid.from_bytes Z.testbit].
  repeat match goal with
         | |- context [Z.testbit ?c ?m] =>
             lazymatch c with
             | Uuid.from_bytes _ => fail
             | _ => let b := eval vm_compute in (Z.testbit c m) in
                    change (Z.testbit c m) with b
             end
         end.
  cbn [negb].
  rewrite ?Bool.andb_true_r, ?Bool.andb_false_r, ?Bool.orb_false_r,
          ?Bool.orb_true_r.
  reflexivity.
Qed.

Lemma name_of_hex_inj (prefix ext : string) (v w : Z) :
  0 <= v < Uuid.two128 -> 0 <= w < Uuid.two128 ->
  name_of prefix (Uuid.hex v) ext = name_of prefix (Uuid.hex w) ext ->
  v = w.
Proof.
  intros Hv Hw H. unfold name_of in H.
  apply append_cancel_l in H. apply append_cancel_l in H.
  apply append_same_length in H.
  - now apply UuidFacts.hex_inj.
  - unfold Uuid.hex. now rewrite !UuidFacts.hex_digits_length.
Qed.

(** C8.  Every artifact name is [<prefix>_<hex>.<ext>]: [_unique_filename]
    appends to the prefix the 32 lower-case hexadecimal digits of a
    [uuid4()], a value below [2^128] made from sixteen random bytes, then
    the extension.  The value is the random draw itself but for the six
    bits that [uuid4] forces (variant [10] at bits 63 and 62, version
    [0100] at bits 79 to 76): each of the other 122 bits of the value is
    that bit of the draw, and the hexadecimal suffix reads back as the
    value, so two draws that differ in one of those bits give two
    different names.  After any request, an entry of the output directory
    is an entry that was there before or carries such a name, made from a
    draw of that request, one of the handlers' own prefixes and one of
    their extensions; and the final state is the same whatever file names
    the client gave to the uploads. *)
Theorem C8_generated_names (env : Env) :
  (forall (prefix ext : string) (st : State),
      exists v : Z,
        0 <= v < 2 ^ 128 /\
        v = Uuid.uuid4_int (urandom16 env (draws st)) /\
        _unique_filename env prefix ext st
        = (Ok (prefix ++ "_" ++ Uuid.hex v ++ "." ++ ext)%string,
           mkState (outputs st) (S (draws st)) (trace st)) /\
        String.length (Uuid.hex v) = 32%nat /\
        Uuid.all_hex (Uuid.hex v) = true /\
        Uuid.unhex (Uuid.hex v) = v /\
        (forall n : Z,
            0 <= n < 128 -> ~ In n forced_bits ->
            Z.testbit v n = Z.testbit (urandom16 env (draws st)) n) /\
        map (Z.testbit v) forced_bits
        = [false; true; false; false; true; false]) /\
  (forall (prefix ext : string) (st1 st2 : State) (n : Z),
      0 <= n < 128 -> ~ In n forced_bits ->
      Z.testbit (urandom16 env (draws st1)) n
      <> Z.testbit (urandom16 env (draws st2)) n ->
      fst (_unique_filename env prefix ext st1)
      <> fst (_unique_filename env prefix ext st2)) /\
  (forall (r : Request) (st : State) (n : string),
      In n (Dir.listdir (outputs (snd (handle env r st)))) ->
      In n (Dir.listdir (outputs st)) \/
      fresh_name env (draws st) (draws (snd (handle env r st))) n) /\
  (forall (r : Request) (st : State),
      snd (handle env (anonymize r) st) = snd (handle env r st)).
Proof.
  split; [|split; [|split]].
  - intros prefix ext st.
    exists (Uuid.uuid4_int (urandom16 env (draws st))).
    pose proof (UuidFacts.uuid4_int_range (urandom16 env (draws st))) as Hr.
    destruct (UuidFacts.hex_facts _ Hr) as (Hl & Hh & Hu).
    repeat split; auto; try apply Hr.
    + intros n Hn Hout. now apply uuid4_int_keeps.
    + apply uuid4_int_forced.
  - intros prefix ext st1 st2 n Hn Hout Hd H. apply Hd.
    unfold _unique_filename, uuid4_hex, bind, ret in H. cbn [fst] in H.
    injection H as H.
    apply name_of_hex_inj in H; try apply UuidFacts.uuid4_int_range.
    rewrite <- (uuid4_int_keeps _ n Hn Hout).
    rewrite <- (uuid4_int_keeps (urandom16 env (draws st2)) n Hn Hout).
    now rewrite H.
  - intros r st n. apply (handle_extends env r st).
  - apply handle_anonymize.
Qed.

Lemma C8_generated_names_witness :
  fst (_unique_filename (Toy.env None) "converted" "pdf" (mkState [] 4 []))
  <> fst (_unique_filename (Toy.env None) "converted" "pdf" (mkState [] 5 [])).
Proof.
  refine (proj1 (proj2 (C8_generated_names (Toy.env None)))
            "converted" "pdf" (mkState [] 4 []) (mkState [] 5 []) 0 _ _ _).
  - lia.
  - unfold forced_bits. cbn [In]. lia.
  - vm_compute. discriminate.
Defined.

(** The toy world draws 4, then 5: the names differ in the last digit. *)
Example names_of_draws :
  fst (_unique_filename (Toy.env None) "converted" "pdf" (mkState [] 4 []))
  = Ok "converted_00000000000040008000000000000004.pdf" /\
  fst (_unique_filename (Toy.env None) "converted" "pdf" (mkState [] 5 []))
  = Ok "converted_00000000000040008000000000000005.pdf".
Proof. split; vm_compute; reflexivity. Qed.

(** ** What a handler call can end in *)

(** X1.  A call of a handler of main.py, on parameters the framework has
    already bound (a request whose form cannot be bound never reaches the
    handler and is not a call), ends in one of three ways: it returns its
    JSON body, it raises an [HTTPException] whose status is 400, 401 or
    500, or a library exception escapes it.  The exception raised is the
    401 of [_check_secret] exactly when the handler takes an API key and
    the Auth Guard rejects it: [health] takes no key, and no other
    [raise] of the file carries a 401. *)
Theorem X1_handler_outcomes (env : Env) (r : Request) (st : State) :
  let res := fst (handle env r st) in
  ((exists j, res = Ok j) \/
   (exists c d, res = Raise (HTTPException c d) /\
                (c = 400 \/ c = 401 \/ c = 500)) \/
   (exists p, res = Raise (Uncaught p))) /\
  ((exists d, res = Raise (HTTPException 401 d)) <->
   exists key, api_key_of r = Some key /\ ~ guard_passes env key) /\
  ((exists key, api_key_of r = Some key /\ ~ guard_passes env key) ->
   handle env r st = (Raise unauthorized, st)).
Proof.
  cbv zeta.
  assert (D : (exists key, api_key_of r = Some key /\ ~ guard_passes env key)
              \/ (forall key, api_key_of r = Some key -> guard_passes env key)).
  { destruct (api_key_of r) as [key|] eqn:Ek.
    - destruct (guard_passes_dec env key) as [G|G].
      + right. intros k Hk. injection Hk as <-. exact G.
      + left. now exists key.
    - right. intros k Hk. discriminate. }
  destruct D as [(key & Ek & G)|HG].
  - assert (E : handle env r st = (Raise unauthorized, st)).
    { destruct r; cbn in Ek; try discriminate; injection Ek as ->;
        cbn [handle];
        unfold scan_to_pdf, image_to_pdf, image_to_image, image_compress,
               pdf_to_images, pdf_merge, pdf_split, cleanup;
        unfold bind at 1; rewrite (check_secret_fail _ _ _ G); reflexivity. }
    rewrite E. cbn [fst]. split; [|split].
    + right. left. exists 401, "Unauthorized". split; [reflexivity|auto].
    + split; [|intros _; now exists "Unauthorized"].
      intros _. now exists key.
    + reflexivity.
  - assert (N : ~ exists key, api_key_of r = Some key /\ ~ guard_passes env key).
    { intros (key & Ek & G). elim G. now apply HG. }
    destruct (handle env r st) as [[j|[c d|p]] st'] eqn:E; cbn [fst].
    + split; [left; now exists j|]. split; [|tauto].
      split; [intros [d H]; discriminate H|tauto].
    + destruct (raised_after_guard env r st st' c d HG E) as [-> | ->].
      * split; [right; left; exists 400, d; auto|]. split; [|tauto].
        split; [intros [d' H]; discriminate H|tauto].
      * split; [right; left; exists 500, d; auto|]. split; [|tauto].
        split; [intros [d' H]; discriminate H|tauto].
    + split; [right; right; now exists p|]. split; [|tauto].
      split; [intros [d H]; discriminate H|tauto].
Qed.

Lemma X1_handler_outcomes_witness :
  handle (Toy.env (Some "s3cret")) (Cleanup None) Toy.st0
  = (Raise unauthorized, Toy.st0).
Proof.
  apply (proj2 (proj2 (X1_handler_outcomes (Toy.env (Some "s3cret"))
                                           (Cleanup None) Toy.st0))).
  exists None. split; [reflexivity|]. intros [H|H]; discriminate.
Defined.

(** ** PDF to images, page by page *)

Section PdfToImages.

Variable env : Env.

(** The loop succeeds when every page rasterizes and the disk takes each
    PNG under the name drawn for it. *)
Lemma render_pages_written (pages : list (FitzPage env))
      (datas : list bytes) :
  Forall2 (rasterized env) pages datas ->
  forall i acc st,
    let names := page_names env "page_" "png" i (draws st)
                            (List.length pages) in
    written env (combine names datas) ->
    let run := render_pages env i pages acc st in
    fst run = Ok (acc ++ map url_of names) /\
    outputs (snd run) = put_all (outputs st) (combine names datas) /\
    draws (snd run) = (draws st + List.length pages)%nat.
Proof.
  intros Hall. induction Hall as [|p b pages datas (pix & Hp & Hb) _ IH];
    intros i acc st.
  - cbn. rewrite app_nil_r. auto.
  - cbn zeta. cbn [render_pages List.length page_names combine].
    intros Hw. apply Forall_cons_iff in Hw. destruct Hw as [Hw1 Hw2].
    cbv beta iota delta [fst snd] in Hw1.
    norm_m. rewrite Hp. norm_m. rewrite Hb. norm_m. rewrite Hw1. norm_m.
    match goal with
    | |- context [render_pages env (S i) pages ?a ?s] =>
        destruct (IH (S i) a s Hw2) as (E1 & E2 & E3)
    end.
    cbn [draws outputs] in E1, E2, E3.
    rewrite E1, E2, E3. cbn [map combine put_all fold_left fst snd].
    rewrite <- app_assoc. repeat split; try reflexivity. lia.
Qed.

(** And only then. *)
Lemma render_pages_needs (pages : list (FitzPage env)) :
  forall i acc st urls st',
    render_pages env i pages acc st = (Ok urls, st') ->
    exists datas,
      Forall2 (rasterized env) pages datas /\
      written env (combine (page_names env "page_" "png" i (draws st)
                                       (List.length pages)) datas).
Proof.
  induction pages as [|p rest IH]; intros i acc st urls st' H.
  - exists []. split; constructor.
  - cbn [render_pages] in H. revert H. norm_m.
    destruct (get_pixmap env p (mkMatrix 2 2)) as [e|pix] eqn:Hp;
      [discriminate|]. norm_m.
    destruct (tobytes env pix "png") as [e|b] eqn:Hb; [discriminate|].
    norm_m.
    destruct (file_write env _ b) as [[e [part|]]|] eqn:Hw;
      norm_m; try discriminate.
    intros H.
    apply IH in H. cbn [draws] in H. destruct H as (datas & Hall & Hws).
    exists (b :: datas). split.
    + constructor; [now exists pix|exact Hall].
    + cbn [List.length page_names combine]. constructor; [exact Hw|exact Hws].
Qed.

End PdfToImages.

(** C6.  For a PDF that opens, PDF->Images either answers with one
    reference per page or fails with an exception nobody catches (a 500)
    and answers with no reference at all.  It answers, with exactly N
    references for the N pages of the document, the k-th being
    ['/outputs/page_<k+1>_<hex>.png'], the N PNGs written in page order
    and [pageCount] N, exactly when every page rasterizes under
    [fitz.Matrix(2, 2)] to a PNG and the disk takes each PNG under the
    name drawn for it.  A document whose pages cannot be iterated (an
    encrypted one) fails before any page is looked at, with nothing
    written.  For N = 0 the answer is an empty list with [pageCount] 0,
    nothing is written, and the request does not fail. *)
Theorem C6_pdf_to_images (env : Env) (key : option string)
        (file : UploadFile) (st : State) (doc : FitzDoc env) :
  guard_passes env key ->
  fitz_open env (content file) = inr doc ->
  let run := pdf_to_images env key file st in
  let opened := mkState (outputs st) (draws st)
                        (trace st ++ [UploadRead (content file);
                                      FitzOpen (content file)]) in
  (forall e, doc_pages env doc = inl e ->
             run = (Raise (Uncaught e), opened)) /\
  (forall pages : list (FitzPage env),
      doc_pages env doc = inr pages ->
      let N := List.length pages in
      let names := page_names env "page_" "png" 0 (draws st) N in
      ((exists urls, fst run = Ok (files_response urls) /\
                     List.length urls = N) \/
       (exists p, fst run = Raise (Uncaught p))) /\
      (forall datas,
          Forall2 (rasterized env) pages datas ->
          written env (combine names datas) ->
          fst run = Ok (JObj [("success", JBool true);
                              ("files",
                               JList (map JStr
                                        (map (fun n => ("/outputs/" ++ n)%string)
                                             names)));
                              ("pageCount", JInt (Z.of_nat N))]) /\
          outputs (snd run) = put_all (outputs st) (combine names datas)) /\
      ((exists j, fst run = Ok j) ->
       exists datas, Forall2 (rasterized env) pages datas /\
                     written env (combine names datas)) /\
      List.length names = N /\
      (forall k, (k < N)%nat ->
                 nth_error names k
                 = Some (name_of ("page_" ++ PyStr.of_nat (k + 1))
                                 (Uuid.hex (Uuid.uuid4_int
                                              (urandom16 env (draws st + k))))
                                 "png")) /\
      (N = 0%nat ->
       fst run = Ok (JObj [("success", JBool true); ("files", JList []);
                           ("pageCount", JInt 0)]) /\
       outputs (snd run) = outputs st)).
Proof.
  intros G Hopen run opened. split.
  - intros e He. subst run opened. unfold pdf_to_images. unfold bind at 1.
    rewrite (check_secret_pass _ _ _ G). norm_m. rewrite Hopen. norm_m.
    rewrite He. norm_m. rewrite <- app_assoc. reflexivity.
  - intros pages Hpages N names.
    assert (Erun : run = (out_files <- render_pages env 0 pages [] ;;
                          ret (files_response out_files)) opened)
      by (apply (pdf_to_images_opened env key file st doc); assumption).
    assert (Hlen : List.length names = N) by apply page_names_length.
    assert (Hgood : forall datas,
               Forall2 (rasterized env) pages datas ->
               written env (combine names datas) ->
               fst run = Ok (files_response (map url_of names)) /\
               outputs (snd run)
               = put_all (outputs st) (combine names datas)).
    { intros datas Hall Hw. rewrite Erun. unfold bind.
      destruct (render_pages_written env pages datas Hall 0 [] opened Hw)
        as (E1 & E2 & _).
      destruct (render_pages env 0 pages [] opened) as [[out|e] s'];
        cbn [fst snd outputs draws] in *; [|discriminate].
      injection E1 as ->. cbn [app]. split; [reflexivity|exact E2]. }
    split; [|split; [|split; [|split; [|split]]]].
    + rewrite Erun. unfold bind.
      destruct (render_pages env 0 pages [] opened) as [[out|e] s'] eqn:E;
        cbn [fst].
      * left. exists out. split; [reflexivity|].
        apply render_pages_ok in E. destruct E as (ns & -> & Hl & _).
        rewrite length_app, length_map. exact Hl.
      * right. apply render_pages_raises in E. destruct E as [p ->].
        now exists p.
    + intros datas Hall Hw. destruct (Hgood datas Hall Hw) as [Hres Hout].
      split; [|exact Hout].
      rewrite Hres. unfold files_response.
      rewrite !length_map, Hlen. reflexivity.
    + intros [j Hj]. rewrite Erun in Hj. unfold bind in Hj.
      destruct (render_pages env 0 pages [] opened) as [[out|e] s'] eqn:E;
        [|discriminate Hj].
      apply (render_pages_needs env pages 0 [] opened out s' E).
    + exact Hlen.
    + intros k Hk. unfold names. rewrite page_names_nth by exact Hk.
      reflexivity.
    + intros H0. destruct pages; [|discriminate H0].
      destruct (Hgood [] (Forall2_nil _) (Forall_nil _)) as [Hres Hout].
      split; [exact Hres|exact Hout].
Qed.

Lemma C6_pdf_to_images_witness :
  fst (pdf_to_images (Toy.env None) None (Toy.upload "a.pdf" Toy.pdf2) Toy.st0)
  = Ok (JObj [("success", JBool true);
              ("files",
               JList [JStr "/outputs/page_1_00000000000040008000000000000000.png";
                      JStr "/outputs/page_2_00000000000040008000000000000001.png"]);
              ("pageCount", JInt 2)]).
Proof.
  refine (proj1 (proj1 (proj2 (proj2 (C6_pdf_to_images (Toy.env None) None
                   (Toy.upload "a.pdf" Toy.pdf2) Toy.st0
                   [Byte.x01; Byte.x02] _ _)
                   [Byte.x01; Byte.x02] _))
                   [[Byte.x01; Byte.x01]; [Byte.x02; Byte.x02]] _ _)).
  - left. reflexivity.
  - reflexivity.
  - reflexivity.
  - repeat constructor; eexists; split; reflexivity.
  - repeat constructor.
Defined.

(** C6, as worded, fails: a PDF that opens with two pages, the second of
    which does not rasterize, is answered with no reference at all, by an
    exception nobody catches, after the first page's PNG was written. *)
Lemma C6_counterexample :
  let env := Toy.env None in
  let file := Toy.upload "a.pdf" Toy.pdf_bad2 in
  let run := pdf_to_images env None file Toy.st0 in
  guard_passes env None /\
  (exists doc, fitz_open env (content file) = inr doc /\
               exists pages, doc_pages env doc = inr pages /\
                             List.length pages = 2%nat) /\
  fst run = Raise (Uncaught (OtherException "bad page")) /\
  http_status (fst run) = 500 /\
  Dir.listdir (outputs (snd run))
  = ["page_1_00000000000040008000000000000000.png"].
Proof.
  cbv zeta. split; [left; reflexivity|]. split.
  - exists [Byte.x01; Byte.xff]. split; [reflexivity|].
    exists [Byte.x01; Byte.xff]. split; reflexivity.
  - vm_compute. repeat split.
Qed.

(** ** Image to image: the target and the encoder *)

(** C5.  On an upload that decodes and converts to RGB, Image->Image
    succeeds exactly when the target format, lower-cased and stripped, is
    one of [png], [jpeg], [jpg], [webp] and [img.save] returns.  A target
    outside the set fails with
    [HTTPException(400, 'Unsupported target_format. ...')], nothing
    written and no name drawn.  With a target of the set the outcome is
    the one of [img.save], which no [try] surrounds: if it returns, the
    response names the artifact and the directory holds it; if it raises,
    the exception escapes (a 500) after the name has been drawn, and what
    the encoder had written of the file stays.  The image that is saved
    is the RGB conversion of the decoded upload, under the encoding of
    the target: JPEG for both [jpg] and [jpeg], PNG for [png], WEBP for
    [webp]. *)
Theorem C5_image_to_image (env : Env) (key : option string)
        (file : UploadFile) (tf : PyStr.text) (st : State)
        (img0 img : PILImage env) :
  guard_passes env key ->
  Image_open env (content file) = inr img0 ->
  Image_convert env img0 "RGB" = inr img ->
  let target := target_of env tf in
  let run := image_to_image env key file tf st in
  let c := content file in
  let name :=
    name_of "converted_img"
            (Uuid.hex (Uuid.uuid4_int (urandom16 env (draws st))))
            (extension_of target) in
  let saved := Image_save env img name (encoding_of target) None false in
  let decoded := trace st ++ [UploadRead c; ImageOpen c; ImageConvert "RGB"] in
  ((exists j, fst run = Ok j) <->
   valid_target target /\ exists data, saved = Stored data) /\
  (~ valid_target target ->
   run = (Raise (HTTPException 400
                   "Unsupported target_format. Use png, jpeg, webp"),
          mkState (outputs st) (draws st) decoded)) /\
  (valid_target target ->
   forall data,
     saved = Stored data ->
     run = (Ok (JObj [("success", JBool true);
                      ("fileUrl", JStr ("/outputs/" ++ name));
                      ("filename", JStr name)]),
            mkState (Dir.put (outputs st) name data) (S (draws st))
                    (decoded ++ [ImageSave name (encoding_of target)
                                           None false]))) /\
  (valid_target target ->
   forall e part,
     saved = Failed e part ->
     run = (Raise (Uncaught e),
            mkState (match part with
                     | Some b => Dir.put (outputs st) name b
                     | None => outputs st
                     end)
                    (S (draws st))
                    (decoded ++ [ImageSave name (encoding_of target)
                                           None false])) /\
     http_status (fst run) = 500) /\
  (encoding_of (PyStr.of_string "jpg") = "JPEG" /\
   encoding_of (PyStr.of_string "jpeg") = "JPEG" /\
   encoding_of (PyStr.of_string "png") = "PNG" /\
   encoding_of (PyStr.of_string "webp") = "WEBP").
Proof.
  intros G Hopen Hconv target run c name saved decoded.
  assert (Hno : ~ valid_target target ->
                run = (Raise (HTTPException 400
                                "Unsupported target_format. Use png, jpeg, webp"),
                       mkState (outputs st) (draws st) decoded)).
  { intros Hbad. apply (image_to_image_rejects env key file st img0 img);
      assumption. }
  assert (Hrun : valid_target target ->
                 run = (store (ImageSave name (encoding_of target) None false)
                              name saved ;;
                        ret (file_response name []))
                         (mkState (outputs st) (S (draws st)) decoded)).
  { intros Hok. subst run.
    rewrite (image_to_image_saves env key file st img0 img G Hopen Hconv tf Hok).
    reflexivity. }
  assert (Hyes : valid_target target ->
                 forall data,
                   saved = Stored data ->
                   run = (Ok (JObj [("success", JBool true);
                                    ("fileUrl", JStr ("/outputs/" ++ name));
                                    ("filename", JStr name)]),
                          mkState (Dir.put (outputs st) name data)
                                  (S (draws st))
                                  (decoded ++ [ImageSave name
                                                 (encoding_of target)
                                                 None false]))).
  { intros Hok data Hd. rewrite (Hrun Hok). norm_m. rewrite Hd. norm_m.
    reflexivity. }
  assert (Hfail : valid_target target ->
                  forall e part,
                    saved = Failed e part ->
                    run = (Raise (Uncaught e),
                           mkState (match part with
                                    | Some b => Dir.put (outputs st) name b
                                    | None => outputs st
                                    end)
                                   (S (draws st))
                                   (decoded ++ [ImageSave name
                                                  (encoding_of target)
                                                  None false]))).
  { intros Hok e part Hd. rewrite (Hrun Hok). norm_m. rewrite Hd.
    destruct part; norm_m; reflexivity. }
  split; [|split; [exact Hno|split; [exact Hyes|split]]].
  - split.
    + intros [j Hj].
      assert (Hv : valid_target target).
      { destruct (PyStr.tmem target
                    [PyStr.of_string "png"; PyStr.of_string "jpeg";
                     PyStr.of_string "jpg"; PyStr.of_string "webp"]) eqn:Hm;
          [now apply tmem_targets|].
        rewrite Hno in Hj; [discriminate|].
        intros Hv. apply tmem_targets in Hv. congruence. }
      split; [exact Hv|].
      destruct saved as [data|e part] eqn:Hs; [now exists data|].
      rewrite (Hfail Hv e part eq_refl) in Hj. discriminate.
    + intros (Hok & data & Hd). rewrite (Hyes Hok data Hd).
      eexists. reflexivity.
  - intros Hok e part Hd. rewrite (Hfail Hok e part Hd). split; reflexivity.
  - repeat split.
Qed.

Lemma C5_image_to_image_witness :
  image_to_image (Toy.env None) None (Toy.upload "a.png" Toy.png)
                 (PyStr.of_string "  JPEG ") Toy.st0
  = (Ok (JObj [("success", JBool true);
               ("fileUrl",
                JStr "/outputs/converted_img_00000000000040008000000000000000.jpg");
               ("filename",
                JStr "converted_img_00000000000040008000000000000000.jpg")]),
     mkState [("converted_img_00000000000040008000000000000000.jpg", Toy.png)]
             1
             [UploadRead Toy.png; ImageOpen Toy.png; ImageConvert "RGB";
              ImageSave "converted_img_00000000000040008000000000000000.jpg"
                        "JPEG" None false]).
Proof.
  exact (proj1 (proj2 (proj2
           (C5_image_to_image (Toy.env None) None
              (Toy.upload "a.png" Toy.png) (PyStr.of_string "  JPEG ")
              Toy.st0 Toy.png Toy.png
              (or_introl eq_refl) eq_refl eq_refl)))
           (or_intror (or_introl eq_refl)) Toy.png eq_refl).
Defined.

(** C5, as worded, fails: a validated image and a target of the accepted
    set, on an imaging library built without WebP, is answered by the
    encoder's exception (a 500), not by a success. *)
Lemma C5_counterexample :
  let env := nowebp_env in
  let file := Toy.upload "a.png" Toy.png in
  let tf := PyStr.of_string " WebP " in
  let run := image_to_image env None file tf Toy.st0 in
  guard_passes env None /\
  (exists img0 img, Image_open env (content file) = inr img0 /\
                    Image_verify env img0 = None /\
                    Image_convert env img0 "RGB" = inr img) /\
  target_of env tf = PyStr.of_string "webp" /\
  valid_target (target_of env tf) /\
  fst run = Raise (Uncaught (OtherException "encoder webp not available")) /\
  http_status (fst run) = 500.
Proof.
  cbv zeta. split; [left; reflexivity|]. split.
  - exists Toy.png, Toy.png. repeat split.
  - split; [reflexivity|]. split; [right; right; right; reflexivity|].
    split; reflexivity.
Qed.

(** White space is stripped over the whole of Unicode: an ideographic
    space goes like any other. *)
Example target_of_padded :
  target_of (Toy.env None) (12288%N :: PyStr.of_string " png" ++ [12288%N])
  = PyStr.of_string "png".
Proof. reflexivity. Qed.

(** ** Failures and the output directory *)

Lemma wfd_same (st st' : State) :
  outputs st' = outputs st -> (draws st <= draws st')%nat ->
  writes_follow_draws st st'.
Proof. intros E L. split; auto. Qed.

Lemma wfd_drawn (st st' : State) :
  (draws st < draws st')%nat -> writes_follow_draws st st'.
Proof. intros L. split; [lia|]. intros E. lia. Qed.

Lemma wfd_trans (s1 s2 s3 : State) :
  writes_follow_draws s1 s2 -> writes_follow_draws s2 s3 ->
  writes_follow_draws s1 s3.
Proof.
  intros [L1 E1] [L2 E2]. split; [lia|]. intros E.
  rewrite E2 by lia. apply E1. lia.
Qed.

Lemma wfd_eq_l (st s s' : State) :
  outputs s = outputs st -> draws s = draws st ->
  writes_follow_draws s s' -> writes_follow_draws st s'.
Proof. unfold writes_follow_draws. intros -> ->. auto. Qed.

Ltac solve_wfd :=
  first [ apply wfd_same; simpl; [reflexivity | lia]
        | apply wfd_drawn; simpl; lia ].

Section FailuresAndDraws.

Variable env : Env.

Lemma render_pages_wfd (pages : list (FitzPage env)) :
  forall i acc st r st',
    render_pages env i pages acc st = (r, st') -> writes_follow_draws st st'.
Proof.
  induction pages as [|p rest IH]; intros i acc st r st' H;
    cbn [render_pages] in H.
  - exec. solve_wfd.
  - exec; try solve_wfd.
    all: apply render_pages_extends in H; destruct H as [H _];
      cbn [draws] in H; apply wfd_drawn; lia.
Qed.

Lemma split_pages_wfd (pages : list (PdfPage env)) :
  forall i acc st r st',
    split_pages env i pages acc st = (r, st') -> writes_follow_draws st st'.
Proof.
  induction pages as [|p rest IH]; intros i acc st r st' H;
    cbn [split_pages] in H.
  - exec. solve_wfd.
  - exec; try solve_wfd.
    all: apply split_pages_extends in H; destruct H as [H _];
      cbn [draws] in H; apply wfd_drawn; lia.
Qed.

(** Whatever a conversion answers, it wrote nothing before its first
    draw. *)
Lemma handle_wfd (r : Request) (st : State) (res : result json)
      (st' : State) :
  is_cleanup r = false ->
  handle env r st = (res, st') -> writes_follow_draws st st'.
Proof.
  intros Hr H. destruct r; cbn [handle] in H; try discriminate Hr.
  - exec. solve_wfd.
  - unfold scan_to_pdf, image_to_pdf in H.
    auth env x_api_key H; [|exec; solve_wfd].
    exec; try solve_wfd.
    all: match goal with
         | E : read_images _ _ _ _ = _ |- _ =>
             apply read_images_state in E; cbn in E; destruct E as [E1 E2]
         end.
    all: eapply wfd_eq_l; [exact E1 | exact E2 | solve_wfd].
  - unfold scan_to_pdf, image_to_pdf in H.
    auth env x_api_key H; [|exec; solve_wfd].
    exec; try solve_wfd.
    all: match goal with
         | E : read_images _ _ _ _ = _ |- _ =>
             apply read_images_state in E; cbn in E; destruct E as [E1 E2]
         end.
    all: eapply wfd_eq_l; [exact E1 | exact E2 | solve_wfd].
  - unfold image_to_image in H.
    auth env x_api_key H; [|exec; solve_wfd].
    exec; solve_wfd.
  - unfold image_compress in H.
    auth env x_api_key H; [|exec; solve_wfd].
    exec; solve_wfd.
  - unfold pdf_to_images in H.
    auth env x_api_key H; [|exec; solve_wfd].
    exec; try solve_wfd.
    all: match goal with
         | E : render_pages _ _ _ _ _ = _ |- _ =>
             apply render_pages_wfd in E;
             eapply wfd_trans; [|exact E]; solve_wfd
         end.
  - unfold pdf_merge in H.
    auth env x_api_key H; [|exec; solve_wfd].
    exec; try solve_wfd.
    all: match goal with
         | E : append_all _ _ _ _ = _ |- _ =>
             apply append_all_state in E; cbn in E; destruct E as [E1 E2]
         end.
    all: eapply wfd_eq_l; [exact E1 | exact E2 | solve_wfd].
  - unfold pdf_split in H.
    auth env x_api_key H; [|exec; solve_wfd].
    exec; try solve_wfd.
    all: match goal with
         | E : split_pages _ _ _ _ _ = _ |- _ =>
             apply split_pages_wfd in E;
             eapply wfd_trans; [|exact E]; solve_wfd
         end.
Qed.

(** A failed [cleanup] is a rejected key. *)
Lemma cleanup_raises (key : option string) (st : State) (e : exn)
      (st' : State) :
  cleanup env key st = (Raise e, st') -> st' = st.
Proof.
  intros H. unfold cleanup in H. auth env key H; [|exec; reflexivity].
  unfold bind at 1 in H. unfold emit in H. unfold bind at 1 in H.
  unfold get_outputs in H. cbn [outputs] in H. unfold bind in H.
  match type of H with
  | context [remove_all env ?l ?c ?s] =>
      destruct (remove_all_returns env l c s) as (n & s' & E);
      rewrite E in H
  end.
  discriminate H.
Qed.

End FailuresAndDraws.

Section PartialWrites.

Variable env : Env.

Lemma put_all_keeps (l : list (string * bytes)) :
  forall (d : Dir.t) (n : string),
    In n (Dir.listdir d) -> In n (Dir.listdir (put_all d l)).
Proof.
  induction l as [|[m b] l IH]; intros d n H; cbn; [exact H|].
  apply IH. apply listdir_put. now left.
Qed.

Lemma put_all_lists (names : list string) :
  forall (datas : list bytes) (d : Dir.t),
    List.length names = List.length datas ->
    Forall (fun n => In n (Dir.listdir (put_all d (combine names datas))))
           names.
Proof.
  induction names as [|n names IH]; intros [|b datas] d Hl;
    try discriminate Hl; constructor.
  - cbn. apply put_all_keeps. apply listdir_put. now right.
  - cbn. apply IH. now injection Hl.
Qed.

Lemma left_behind_keeps (d : Dir.t) (name : string) (part : option bytes)
      (n : string) :
  In n (Dir.listdir d) -> In n (Dir.listdir (left_behind d name part)).
Proof.
  destruct part; cbn; [|auto]. intros H. apply listdir_put. now left.
Qed.

(** Where the page loop of [pdf_to_images] stops: the pages before the
    failing one were rasterized and written; the failing page did not
    rasterize, and then the directory holds the earlier pages' files and
    no more, or its write failed, and then the directory holds, on top
    of those, what the write left of the file. *)
Lemma render_pages_fails (pages : list (FitzPage env)) :
  forall i acc st e st',
    render_pages env i pages acc st = (Raise e, st') ->
    exists done bad rest datas,
      pages = done ++ bad :: rest /\
      Forall2 (rasterized env) done datas /\
      let k := List.length done in
      let names := page_names env "page_" "png" i (draws st) k in
      let kept := put_all (outputs st) (combine names datas) in
      let name := name_of ("page_" ++ PyStr.of_nat (i + k + 1))
                          (Uuid.hex (Uuid.uuid4_int
                                       (urandom16 env (draws st + k))))
                          "png" in
      written env (combine names datas) /\
      ((draws st' = (draws st + k)%nat /\ outputs st' = kept /\
        ~ (exists b, rasterized env bad b)) \/
       (draws st' = S (draws st + k) /\
        exists b e' part,
          rasterized env bad b /\
          file_write env name b = Some (e', part) /\
          outputs st' = left_behind kept name part)).
Proof.
  induction pages as [|p rest IH]; intros i acc st e st' H.
  - discriminate H.
  - cbn [render_pages] in H. revert H. norm_m.
    destruct (get_pixmap env p (mkMatrix 2 2)) as [e0|pix] eqn:Hp.
    { intros H. injection H as <- <-.
      exists [], p, rest, []. cbn. rewrite !Nat.add_0_r.
      repeat split; [constructor|constructor|].
      left. repeat split.
      intros (b & pix & Hx & _). congruence. }
    norm_m.
    destruct (tobytes env pix "png") as [e0|b] eqn:Hb.
    { intros H. injection H as <- <-.
      exists [], p, rest, []. cbn. rewrite !Nat.add_0_r.
      repeat split; [constructor|constructor|].
      left. repeat split.
      intros (b & pix' & Hx & Hy). congruence. }
    norm_m.
    destruct (file_write env _ b) as [[e0 part]|] eqn:Hw.
    { intros H.
      exists [], p, rest, []. cbn [List.length page_names combine put_all
                                    fold_left app].
      rewrite !Nat.add_0_r.
      split; [reflexivity|]. split; [constructor|]. cbv zeta.
      split; [constructor|].
      right.
      destruct part as [x|]; revert H; norm_m; intros H;
        injection H as <- <-; cbn [draws outputs];
        (split; [reflexivity|]);
        eexists b, e0, _; (split; [now exists pix|]);
        (split; [exact Hw|reflexivity]). }
    norm_m. intros H. apply IH in H. cbn [draws outputs] in H.
    destruct H as (done & bad & rest' & datas & -> & Hall & Hwr & Hcase).
    exists (p :: done), bad, rest', (b :: datas).
    split; [reflexivity|]. split; [constructor; [now exists pix|exact Hall]|].
    cbn [List.length page_names combine put_all fold_left fst snd].
    cbv zeta.
    replace (i + S (List.length done))%nat with (S i + List.length done)%nat
      by lia.
    replace (draws st + S (List.length done))%nat
      with (S (draws st) + List.length done)%nat by lia.
    split; [constructor; [exact Hw|exact Hwr]|].
    exact Hcase.
Qed.

(** The same for the page loop of [pdf_split]: the failing page was
    refused by its writer, or its file could not be written. *)
Lemma split_pages_fails (pages : list (PdfPage env)) :
  forall i acc st e st',
    split_pages env i pages acc st = (Raise e, st') ->
    exists done bad rest datas,
      pages = done ++ bad :: rest /\
      let k := List.length done in
      let names := page_names env "split_" "pdf" i (draws st) k in
      let kept := put_all (outputs st) (combine names datas) in
      let name := name_of ("split_" ++ PyStr.of_nat (i + k + 1))
                          (Uuid.hex (Uuid.uuid4_int
                                       (urandom16 env (draws st + k))))
                          "pdf" in
      split_stored env done names datas /\
      ((draws st' = (draws st + k)%nat /\ outputs st' = kept /\
        PdfWriter_add_page env bad <> None) \/
       (draws st' = S (draws st + k) /\
        exists e' part,
          PdfWriter_add_page env bad = None /\
          PdfWriter_write env bad name = Failed e' part /\
          outputs st' = left_behind kept name part)).
Proof.
  induction pages as [|p rest IH]; intros i acc st e st' H.
  - discriminate H.
  - cbn [split_pages] in H. revert H. norm_m.
    destruct (PdfWriter_add_page env p) as [e0|] eqn:Hp.
    { intros H. injection H as <- <-.
      exists [], p, rest, []. cbn. rewrite !Nat.add_0_r.
      repeat split; [constructor|].
      left. repeat split. congruence. }
    norm_m.
    destruct (PdfWriter_write env p _) as [b|e0 part] eqn:Hw.
    2:{ intros H.
        exists [], p, rest, []. cbn [List.length page_names combine put_all
                                      fold_left app].
        rewrite !Nat.add_0_r.
        split; [reflexivity|]. cbv zeta.
        split; [constructor|].
        right.
        destruct part as [x|]; revert H; norm_m; intros H;
          injection H as <- <-; cbn [draws outputs];
          (split; [reflexivity|]);
          eexists e0, _; (split; [exact Hp|]);
          (split; [exact Hw|reflexivity]). }
    norm_m. intros H. apply IH in H. cbn [draws outputs] in H.
    destruct H as (done & bad & rest' & datas & -> & Hst & Hcase).
    exists (p :: done), bad, rest', (b :: datas).
    split; [reflexivity|].
    cbn [List.length page_names combine put_all fold_left fst snd].
    cbv zeta.
    replace (i + S (List.length done))%nat with (S i + List.length done)%nat
      by lia.
    replace (draws st + S (List.length done))%nat
      with (S (draws st) + List.length done)%nat by lia.
    split; [|exact Hcase].
    constructor; [|exact Hst]. cbn [fst snd]. split; [exact Hp|exact Hw].
Qed.

End PartialWrites.

Section OneArtifact.

Variable env : Env.

Ltac one_write st :=
  first
    [ left; reflexivity
    | left; cbn [outputs]; congruence
    | right;
      refine (ex_intro _ _ (ex_intro _ _ (conj _ (conj eq_refl eq_refl))));
      refine (ex_intro _ _ (ex_intro _ _ (ex_intro _ (draws st)
                (conj _ (conj _ (conj _ eq_refl))))));
      [ lia
      | unfold semantic_prefix; tauto
      | first [ unfold known_ext; tauto | eassumption ] ] ].

(** A route that writes one artifact and fails has written nothing, or
    has drawn its one name and left under it what the failed write put on
    the disk. *)
Lemma single_artifact_fails (r : Request) (st : State) (e : exn)
      (st' : State) :
  single_artifact r = true ->
  handle env r st = (Raise e, st') ->
  outputs st' = outputs st \/
  exists n part,
    fresh_name env (draws st) (S (draws st)) n /\
    draws st' = S (draws st) /\
    outputs st' = Dir.put (outputs st) n part.
Proof.
  intros Hr H. destruct r; cbn [handle] in H; try discriminate Hr.
  - unfold scan_to_pdf, image_to_pdf in H.
    auth env x_api_key H; [|exec; left; reflexivity].
    exec.
    all: match goal with
         | E : read_images _ _ _ _ = _ |- _ =>
             apply read_images_state in E; cbn in E; destruct E as [E1 E2];
             try rewrite E1 in *; try rewrite E2 in *
         | _ => idtac
         end.
    all: one_write st.
  - unfold scan_to_pdf, image_to_pdf in H.
    auth env x_api_key H; [|exec; left; reflexivity].
    exec.
    all: match goal with
         | E : read_images _ _ _ _ = _ |- _ =>
             apply read_images_state in E; cbn in E; destruct E as [E1 E2];
             try rewrite E1 in *; try rewrite E2 in *
         | _ => idtac
         end.
    all: one_write st.
  - unfold image_to_image in H.
    auth env x_api_key H; [|exec; left; reflexivity].
    destruct (PyStr.tmem (target_of env target_format)
                [PyStr.of_string "png"; PyStr.of_string "jpeg";
                 PyStr.of_string "jpg"; PyStr.of_string "webp"]) eqn:Hm.
    + pose proof (target_ext _ Hm) as Hext.
      exec; one_write st.
    + exec; left; reflexivity.
  - unfold image_compress in H.
    auth env x_api_key H; [|exec; left; reflexivity].
    exec; one_write st.
  - unfold pdf_merge in H.
    auth env x_api_key H; [|exec; left; reflexivity].
    exec.
    all: match goal with
         | E : append_all _ _ _ _ = _ |- _ =>
             apply append_all_state in E; cbn in E; destruct E as [E1 E2];
             try rewrite E1 in *; try rewrite E2 in *
         | _ => idtac
         end.
    all: one_write st.
Qed.

End OneArtifact.

(** C4.  A failed request has not always left the output directory as it
    was.  It has whenever it failed before drawing a name, whatever the
    step that failed: every 4xx answer is such a failure (the Auth Guard,
    the count of uploads, the validation of an upload, a parameter
    check), and so is every failure of a route that writes one artifact
    other than the failure of that write, and a failure on the first page
    of a document before the page is named.  After a name is drawn
    nothing is rolled back.  A route that writes one artifact leaves,
    under the one name it drew, what the failed write put on the disk.
    When [pdf_to_images] or [pdf_split] fails on a page, in whichever
    step of that page, the files of all the earlier pages are in the
    output directory, under the names drawn for them and with their
    contents, together with what a failed write of the failing page
    left. *)
Theorem C4_failures (env : Env) :
  (forall (r : Request) (st st' : State) (e : exn),
      handle env r st = (Raise e, st') ->
      (draws st <= draws st')%nat /\
      (draws st' = draws st -> outputs st' = outputs st)) /\
  (forall (r : Request) (st st' : State) (c : Z) (d : string),
      handle env r st = (Raise (HTTPException c d), st') ->
      c <> 500 -> outputs st' = outputs st) /\
  (forall (r : Request) (st st' : State) (e : exn),
      single_artifact r = true ->
      handle env r st = (Raise e, st') ->
      outputs st' = outputs st \/
      exists n part,
        fresh_name env (draws st) (S (draws st)) n /\
        draws st' = S (draws st) /\
        outputs st' = Dir.put (outputs st) n part) /\
  (forall (key : option string) (file : UploadFile) (st st' : State)
          (doc : FitzDoc env) (pages : list (FitzPage env)) (e : exn),
      guard_passes env key ->
      fitz_open env (content file) = inr doc ->
      doc_pages env doc = inr pages ->
      pdf_to_images env key file st = (Raise e, st') ->
      exists done bad rest datas,
        pages = done ++ bad :: rest /\
        Forall2 (rasterized env) done datas /\
        let k := List.length done in
        let names := page_names env "page_" "png" 0 (draws st) k in
        let kept := put_all (outputs st) (combine names datas) in
        let name := name_of ("page_" ++ PyStr.of_nat (k + 1))
                            (Uuid.hex (Uuid.uuid4_int
                                         (urandom16 env (draws st + k))))
                            "png" in
        written env (combine names datas) /\
        Forall (fun n => In n (Dir.listdir (outputs st'))) names /\
        ((draws st' = (draws st + k)%nat /\ outputs st' = kept /\
          ~ (exists b, rasterized env bad b)) \/
         (draws st' = S (draws st + k) /\
          exists b e' part,
            rasterized env bad b /\
            file_write env name b = Some (e', part) /\
            outputs st' = left_behind kept name part))) /\
  (forall (key : option string) (file : UploadFile) (st st' : State)
          (reader : Reader env) (pages : list (PdfPage env)) (e : exn),
      guard_passes env key ->
      PdfReader env (content file) = inr reader ->
      reader_pages env reader = inr pages ->
      pdf_split env key file st = (Raise e, st') ->
      exists done bad rest datas,
        pages = done ++ bad :: rest /\
        let k := List.length done in
        let names := page_names env "split_" "pdf" 0 (draws st) k in
        let kept := put_all (outputs st) (combine names datas) in
        let name := name_of ("split_" ++ PyStr.of_nat (k + 1))
                            (Uuid.hex (Uuid.uuid4_int
                                         (urandom16 env (draws st + k))))
                            "pdf" in
        split_stored env done names datas /\
        Forall (fun n => In n (Dir.listdir (outputs st'))) names /\
        ((draws st' = (draws st + k)%nat /\ outputs st' = kept /\
          PdfWriter_add_page env bad <> None) \/
         (draws st' = S (draws st + k) /\
          exists e' part,
            PdfWriter_add_page env bad = None /\
            PdfWriter_write env bad name = Failed e' part /\
            outputs st' = left_behind kept name part))).
Proof.
  split; [|split; [|split; [|split]]].
  - intros r st st' e H.
    destruct (is_cleanup r) eqn:Hr.
    + destruct r; try discriminate Hr. cbn [handle] in H.
      apply cleanup_raises in H. subst st'. split; [lia|reflexivity].
    + exact (handle_wfd env r st _ st' Hr H).
  - intros r st st' c d. apply client_error_writes_nothing.
  - intros r st st' e. apply single_artifact_fails.
  - intros key file st st' doc pages e G Hopen Hpages H.
    rewrite (pdf_to_images_opened env key file st doc pages G Hopen Hpages)
      in H.
    unfold bind in H.
    match type of H with
    | context [render_pages env 0 pages [] ?s] =>
        destruct (render_pages env 0 pages [] s) as [[urls|e0] s'] eqn:E;
        [discriminate H|]
    end.
    injection H as <- <-.
    apply render_pages_fails in E. cbn [outputs draws] in E.
    destruct E as (done & bad & rest & datas & Hp & Hall & Hw & Hcase).
    exists done, bad, rest, datas.
    split; [exact Hp|]. split; [exact Hall|]. cbv zeta.
    split; [exact Hw|]. split; [|exact Hcase].
    assert (Hl : List.length
                   (page_names env "page_" "png" 0 (draws st)
                               (List.length done))
                 = List.length datas).
    { rewrite page_names_length. now apply Forall2_length in Hall. }
    pose proof (put_all_lists
                  (page_names env "page_" "png" 0 (draws st)
                              (List.length done))
                  datas (outputs st) Hl) as Hin.
    destruct Hcase as [(_ & -> & _)|(_ & b & e' & part & _ & _ & ->)];
      [exact Hin|].
    eapply Forall_impl; [|exact Hin]. intros n. apply left_behind_keeps.
  - intros key file st st' reader pages e G Hopen Hpages H.
    rewrite (pdf_split_opened env key file st reader pages G Hopen Hpages)
      in H.
    unfold bind in H.
    match type of H with
    | context [split_pages env 0 pages [] ?s] =>
        destruct (split_pages env 0 pages [] s) as [[urls|e0] s'] eqn:E;
        [discriminate H|]
    end.
    injection H as <- <-.
    apply split_pages_fails in E. cbn [outputs draws] in E.
    destruct E as (done & bad & rest & datas & Hp & Hst & Hcase).
    exists done, bad, rest, datas.
    split; [exact Hp|]. cbv zeta.
    split; [exact Hst|]. split; [|exact Hcase].
    assert (Hl : List.length
                   (page_names env "split_" "pdf" 0 (draws st)
                               (List.length done))
                 = List.length datas).
    { apply Forall2_length in Hst. rewrite <- Hst.
      rewrite length_combine, page_names_length. lia. }
    pose proof (put_all_lists
                  (page_names env "split_" "pdf" 0 (draws st)
                              (List.length done))
                  datas (outputs st) Hl) as Hin.
    destruct Hcase as [(_ & -> & _)|(_ & e' & part & _ & _ & ->)];
      [exact Hin|].
    eapply Forall_impl; [|exact Hin]. intros n. apply left_behind_keeps.
Qed.

Lemma C4_failures_witness :
  In "page_1_00000000000040008000000000000000.png"
     (Dir.listdir
        (outputs
           (snd (pdf_to_images (Toy.env None) None
                               (Toy.upload "a.pdf" Toy.pdf_bad2) Toy.st0)))).
Proof.
  destruct (proj1 (proj2 (proj2 (proj2 (C4_failures (Toy.env None)))))
              None (Toy.upload "a.pdf" Toy.pdf_bad2) Toy.st0
              (snd (pdf_to_images (Toy.env None) None
                                  (Toy.upload "a.pdf" Toy.pdf_bad2) Toy.st0))
              [Byte.x01; Byte.xff] [Byte.x01; Byte.xff]
              (Uncaught (OtherException "bad page"))
              (or_introl eq_refl) eq_refl eq_refl eq_refl)
    as (done & bad & rest & datas & Hp & _ & _ & Hin & Hcase).
  destruct done as [|p0 [|p1 done]].
  - injection Hp as <- _. exfalso.
    destruct Hcase as [(_ & _ & Hno)|(_ & b & e' & part & _ & Hw & _)].
    + apply Hno. exists [Byte.x01; Byte.x01], [Byte.x01; Byte.x01].
      split; reflexivity.
    + discriminate Hw.
  - inversion Hin as [|n l Hn _]. exact Hn.
  - injection Hp as _ _ Hp. destruct done; discriminate Hp.
Defined.
